(** * The pipocas.tv subtitle provider

    A shallow embedding of
    [custom_libs/subliminal_patch/providers/pipocas.py] and the properties
    of it that the specification states.

    Conventions of the embedding.
    - A Python [str] is a [string] (a sequence of 8-bit characters); case
      conversion acts on the letters A-Z and a-z.
    - A Python [bytes] is a [list byte].
    - A Python [int] is a [Z]; an attribute that may be [None] is an
      [option].
    - A Python [float] is a binary64 [float] of the kernel.
    - A [dict] is a [gmap], a [set] is a [gset].
    - What the provider imports from libraries (requests, BeautifulSoup,
      guessit, rarfile, zipfile, the host framework) is a field of the
      class [Libraries]; the provider and the properties hold for every
      instance of it.
    - A method is a function of the state, which holds the provider and
      the trace of what it did to the outside, to a result or an
      exception and the state after. *)

From Stdlib Require Import ZArith String Ascii List Floats.
From Stdlib Require Import DecimalString Strings.Byte.
From stdpp Require Import gmap strings list sorting.

Open Scope Z_scope.

(** ** Python strings *)

Module Py.

(** The double quote character, written with its code. *)
Definition dquote : ascii := "034"%char.
Definition squote : ascii := "039"%char.
Definition newline : ascii := "010"%char.

(** The capitals among the characters below 256: A to Z, and U+00C0 to
    U+00DE but the multiplication sign U+00D7; [str.lower] moves each of
    them by 32. *)
Definition is_upper (c : ascii) : bool :=
  let n := N_of_ascii c in
  (((65 <=? n) && (n <=? 90))
   || ((192 <=? n) && (n <=? 222) && negb (n =? 215)))%N.

Definition lower_char (c : ascii) : ascii :=
  if is_upper c then ascii_of_N (N_of_ascii c + 32) else c.

(** [s.lower()] *)
Fixpoint lower (s : string) : string :=
  match s with
  | EmptyString => EmptyString
  | String c r => String (lower_char c) (lower r)
  end.

(** [s.startswith(p)] *)
Definition startswith (p s : string) : bool := String.prefix p s.

(** [needle in hay] *)
Fixpoint occurs_in (needle hay : string) : bool :=
  startswith needle hay ||
  match hay with
  | EmptyString => false
  | String _ r => occurs_in needle r
  end.

(** [s.endswith(suf)] *)
Fixpoint endswith (suf s : string) : bool :=
  String.eqb suf s ||
  match s with
  | EmptyString => false
  | String _ r => endswith suf r
  end.

(** [s.endswith(sufs)] for a tuple of suffixes *)
Definition endswith_any (sufs : list string) (s : string) : bool :=
  existsb (fun suf => endswith suf s) sufs.

(** [c.isspace()] for a character below 256; also the class [\s] of [re]. *)
Definition is_space (c : ascii) : bool :=
  let n := N_of_ascii c in
  (((9 <=? n) && (n <=? 13)) || ((28 <=? n) && (n <=? 32))
   || (n =? 133) || (n =? 160))%N.

(** The class [\d] of [re], for a character below 256. *)
Definition is_digit (c : ascii) : bool :=
  let n := N_of_ascii c in ((48 <=? n) && (n <=? 57))%N.

Definition digit_value (c : ascii) : Z := Z.of_N (N_of_ascii c) - 48.

Fixpoint lstrip (s : string) : string :=
  match s with
  | EmptyString => EmptyString
  | String c r => if is_space c then lstrip r else s
  end.

Fixpoint all_space (s : string) : bool :=
  match s with
  | EmptyString => true
  | String c r => is_space c && all_space r
  end.

Fixpoint rstrip (s : string) : string :=
  match s with
  | EmptyString => EmptyString
  | String c r => if all_space s then EmptyString else String c (rstrip r)
  end.

(** [s.strip()] *)
Definition strip (s : string) : string := rstrip (lstrip s).

(** [s.rstrip(d)] for a single character [d] *)
Fixpoint all_char (d : ascii) (s : string) : bool :=
  match s with
  | EmptyString => true
  | String c r => Ascii.eqb c d && all_char d r
  end.

Fixpoint rstrip_char (d : ascii) (s : string) : string :=
  match s with
  | EmptyString => EmptyString
  | String c r => if all_char d s then EmptyString else String c (rstrip_char d r)
  end.

(** [str(n)] for an [int] *)
Definition str (n : Z) : string := NilZero.string_of_int (Z.to_int n).

(** The format [{n:02d}] of an f-string: at least two characters, zeros
    after the sign. *)
Definition format_02d (n : Z) : string :=
  if (0 <=? n) && (n <? 10) then String "0"%char (str n) else str n.

(** The blanks that [int()] skips around a number, for a character below
    256: those of [str.isspace] but the separators U+001C to U+001F. *)
Definition is_int_space (c : ascii) : bool :=
  let n := N_of_ascii c in
  (((9 <=? n) && (n <=? 13)) || (n =? 32) || (n =? 133) || (n =? 160))%N.

Fixpoint int_lstrip (s : string) : string :=
  match s with
  | EmptyString => EmptyString
  | String c r => if is_int_space c then int_lstrip r else s
  end.

Fixpoint all_int_space (s : string) : bool :=
  match s with
  | EmptyString => true
  | String c r => is_int_space c && all_int_space r
  end.

Fixpoint int_rstrip (s : string) : string :=
  match s with
  | EmptyString => EmptyString
  | String c r => if all_int_space s then EmptyString else String c (int_rstrip r)
  end.

(** The number of decimal digits of a string. *)
Fixpoint count_digits (s : string) : Z :=
  match s with
  | EmptyString => 0
  | String c r => (if is_digit c then 1 else 0) + count_digits r
  end.

(** [sys.get_int_max_str_digits()], as CPython sets it: [int()] raises
    [ValueError] for a string of more digits. *)
Definition int_max_str_digits : Z := 4300.

(** [int(s)] for a [str]: blanks around, a sign, decimal digits with single
    underscores between them, at most [int_max_str_digits] digits. [None]
    stands for [ValueError]. *)
Fixpoint int_digits (acc : Z) (prev_digit : bool) (s : string) : option Z :=
  match s with
  | EmptyString => if prev_digit then Some acc else None
  | String c r =>
      if is_digit c then int_digits (10 * acc + digit_value c) true r
      else if Ascii.eqb c "_"%char && prev_digit then
        match r with
        | EmptyString => None
        | String d _ => if is_digit d then int_digits acc false r else None
        end
      else None
  end.

Definition int (s : string) : option Z :=
  let literal := int_rstrip (int_lstrip s) in
  if int_max_str_digits <? count_digits literal then None
  else
    match literal with
    | EmptyString => None
    | String c r =>
        if Ascii.eqb c "-"%char then Z.opp <$> int_digits 0 false r
        else if Ascii.eqb c "+"%char then int_digits 0 false r
        else int_digits 0 false (String c r)
    end.

(** [os.path.basename(p)] (POSIX): what follows the last slash. *)
Fixpoint basename_from (p acc : string) : string :=
  match p with
  | EmptyString => acc
  | String c r =>
      if Ascii.eqb c "/"%char then basename_from r EmptyString
      else basename_from r (acc +:+ String c EmptyString)
  end.

Definition basename (p : string) : string := basename_from p EmptyString.

(** [p.rfind(c)], [-1] when [c] does not occur. *)
Fixpoint rfind_from (i : Z) (c : ascii) (s : string) (best : Z) : Z :=
  match s with
  | EmptyString => best
  | String d r => rfind_from (i + 1) c r (if Ascii.eqb d c then i else best)
  end.

Definition rfind (c : ascii) (s : string) : Z := rfind_from 0 c s (-1).

(** [p[i:j]] for [0 <= i <= j]. *)
Definition slice (i j : Z) (s : string) : string :=
  String.substring (Z.to_nat i) (Z.to_nat (j - i)) s.

(** [os.path.splitext(p)[0]] (POSIX): the extension starts at the last dot
    that follows the last slash, unless only dots stand before it. *)
Definition splitext_root (p : string) : string :=
  let sepIndex := rfind "/"%char p in
  let dotIndex := rfind "."%char p in
  if (sepIndex <? dotIndex)
     && negb (all_char "."%char (slice (sepIndex + 1) dotIndex p))
  then slice 0 dotIndex p
  else p.

(** Truth value of an attribute that holds a [str] or [None]. *)
Definition truthy_str (o : option string) : bool :=
  match o with
  | Some (String _ _) => true
  | _ => false
  end.

(** Truth value of an attribute that holds an [int] or [None]. *)
Definition truthy_int (o : option Z) : bool :=
  match o with
  | Some n => negb (n =? 0)
  | None => false
  end.

(** [x or d] *)
Definition str_or (o : option string) (d : string) : string :=
  if truthy_str o then default d o else d.

Definition int_or (o : option Z) (d : Z) : Z :=
  if truthy_int o then default d o else d.

(** A [bytes] literal. *)
Definition b (s : string) : list byte := list_byte_of_string s.

(** [data[:n]] and [data.startswith(p)] on [bytes]. *)
Fixpoint bytes_startswith (p data : list byte) : bool :=
  match p, data with
  | [], _ => true
  | x :: p', y :: data' => Byte.eqb x y && bytes_startswith p' data'
  | _ :: _, [] => false
  end.

End Py.

(** ** The regular expressions of the module *)

Module Re.

Fixpoint drop (n : nat) (s : string) : string :=
  match n, s with
  | O, _ => s
  | S n', String _ r => drop n' r
  | S _, EmptyString => EmptyString
  end.

Fixpoint take_while (f : ascii -> bool) (s : string) : string :=
  match s with
  | EmptyString => EmptyString
  | String c r => if f c then String c (take_while f r) else EmptyString
  end.

Fixpoint drop_while (f : ascii -> bool) (s : string) : string :=
  match s with
  | EmptyString => EmptyString
  | String c r => if f c then drop_while f r else s
  end.

(** A literal under [re.IGNORECASE], matched at the start of [s]. *)
Definition literal_ci (lit s : string) : bool :=
  Py.startswith (Py.lower lit) (Py.lower s).

(** [pattern.search(s)]: the match at the leftmost position that has one. *)
Fixpoint search {A} (match_at : string -> option A) (s : string) : option A :=
  match match_at s with
  | Some m => Some m
  | None =>
      match s with
      | EmptyString => None
      | String _ r => search match_at r
      end
  end.

Definition quote : string := String Py.dquote EmptyString.

(** The literal parts of [TOKEN_RE], compiled with [re.IGNORECASE]: a meta
    tag named csrf-token, whose content attribute is the group [(.+?)]. *)
Definition TOKEN_OPEN : string :=
  "<meta name=" +:+ quote +:+ "csrf-token" +:+ quote +:+ " content=" +:+ quote.
Definition TOKEN_CLOSE : string := quote +:+ ">".

(** [(.+?)] followed by the closing literal: the shortest non-empty run of
    characters other than a newline after which the literal stands. [acc]
    holds the characters of the group read so far. *)
Fixpoint lazy_group (close : string) (acc s : string) : option string :=
  match s with
  | EmptyString => None
  | String c r =>
      if Ascii.eqb c Py.newline then None
      else if literal_ci close r then Some (acc +:+ String c EmptyString)
      else lazy_group close (acc +:+ String c EmptyString) r
  end.

Definition TOKEN_RE_match_at (s : string) : option string :=
  if literal_ci TOKEN_OPEN s
  then lazy_group TOKEN_CLOSE EmptyString (drop (String.length TOKEN_OPEN) s)
  else None.

(** [TOKEN_RE.search(s).group(1)], [None] when there is no match. *)
Definition TOKEN_RE_search (s : string) : option string :=
  search TOKEN_RE_match_at s.

(** The search for a download link in an href: the download path, then the
    group, one or more characters other than a double or single quote. *)
Definition DOWNLOAD_PATH : string := "/legendas/download/".

Definition not_quote (c : ascii) : bool :=
  negb (Ascii.eqb c Py.dquote || Ascii.eqb c Py.squote).

Definition download_id_match_at (s : string) : option string :=
  if Py.startswith DOWNLOAD_PATH s then
    match take_while not_quote (drop (String.length DOWNLOAD_PATH) s) with
    | EmptyString => None
    | g => Some g
    end
  else None.

Definition download_id_search (s : string) : option string :=
  search download_id_match_at s.

(** The search for a rating X/Y: the group [(\d+)], then [\s*/\s*\d+]. *)
Definition rating_match_at (s : string) : option string :=
  match take_while Py.is_digit s with
  | EmptyString => None
  | g =>
      match drop_while Py.is_space (drop (String.length g) s) with
      | String c r =>
          if Ascii.eqb c "/"%char then
            match drop_while Py.is_space r with
            | String d _ => if Py.is_digit d then Some g else None
            | EmptyString => None
            end
          else None
      | EmptyString => None
      end
  end.

Definition rating_search (s : string) : option string :=
  search rating_match_at s.

End Re.

(** ** Exceptions and results *)

Inductive Exn : Type :=
  | ConfigurationError
  | AuthenticationError
  | ServiceUnavailable
  | HTTPError
  | RequestException
  | AttributeError
  | OverflowError
  | OtherError (what : string).

Inductive Result (A : Type) : Type :=
  | Ok (a : A)
  | Raise (e : Exn).
Arguments Ok {A} a.
Arguments Raise {A} e.

(** ** Languages *)

Record Language : Type := { alpha3 : string; country : option string }.

(** [PIPOCAS_LANGUAGE_MAP] *)
Definition PIPOCAS_LANGUAGE_MAP : gmap (string * option string) string :=
  list_to_map
    [ (("por", None), "portugues");
      (("por", Some "PT"), "portugues");
      (("por", Some "BR"), "brasileiro");
      (("eng", None), "ingles");
      (("eng", Some "US"), "ingles");
      (("eng", Some "GB"), "ingles");
      (("spa", None), "espanhol");
      (("spa", Some "ES"), "espanhol");
      (("spa", Some "MX"), "espanhol") ].

(** [get_pipocas_language(language)] *)
Definition get_pipocas_language (language : Language) : option string :=
  let key := (alpha3 language, country language) in
  match PIPOCAS_LANGUAGE_MAP !! key with
  | Some site_lang => Some site_lang
  | None =>
      let key := (alpha3 language, None) in
      PIPOCAS_LANGUAGE_MAP !! key
  end.

(** ** Videos and subtitles *)

Inductive VideoKind : Type := Episode | Movie.

Record Video : Type := {
  video_kind : VideoKind;
  video_name : option string;
  video_title : option string;
  video_year : option Z;
  video_series : option string;
  video_season : option Z;
  video_episode : option Z
}.

Definition is_episode (video : Video) : bool :=
  match video_kind video with Episode => true | Movie => false end.

(** A value of a guessit result. *)
Inductive PyVal : Type :=
  | VInt (n : Z)
  | VStr (s : string)
  | VList (l : list Z).

(** [value != attribute], for an attribute that holds an [int] or [None]. *)
Definition differs (v : PyVal) (attr : option Z) : bool :=
  match v, attr with
  | VInt n, Some m => negb (n =? m)
  | _, _ => true
  end.

Definition SITE : string := "https://pipocas.tv".
Definition LOGIN_URL : string := SITE +:+ "/login".
Definition SEARCH_URL : string := SITE +:+ "/legendas".
(** [DOWNLOAD_URL.format(id=sub_id)] *)
Definition DOWNLOAD_URL (id : string) : string := SITE +:+ "/legendas/download/" +:+ id.

(** The attributes of a [PipocasSubtitle]. *)
Record Subtitle : Type := {
  language : Language;
  video : Video;
  sub_id : string;
  release : string;
  hits : Z;
  uploader : string;
  user_score : Z;
  page_link : string;
  content : option (list byte)
}.

(** [PipocasSubtitle.__init__] *)
Definition PipocasSubtitle (language : Language) (video : Video) (sub_id : string)
    (release : string) (hits : Z) (uploader : option string) (score_stars : Z)
    : Subtitle :=
  {| language := language;
     video := video;
     sub_id := sub_id;
     release := Py.str_or (Some release) EmptyString;
     hits := Py.int_or (Some hits) 0;
     uploader := Py.str_or uploader "pipocas-bot";
     user_score := Py.int_or (Some score_stars) 0;
     page_link := DOWNLOAD_URL sub_id;
     content := None |}.

Definition set_content (subtitle : Subtitle) (data : list byte) : Subtitle :=
  {| language := language subtitle;
     video := video subtitle;
     sub_id := sub_id subtitle;
     release := release subtitle;
     hits := hits subtitle;
     uploader := uploader subtitle;
     user_score := user_score subtitle;
     page_link := page_link subtitle;
     content := Some data |}.

(** ** The star rating of a details page, in binary64 arithmetic *)

Module Stars.

(** [float(n)] for an [int]: the nearest binary64 number, ties to even;
    [OverflowError] when it would not be finite. *)
Definition float_of_int (n : Z) : Result float :=
  let f := SF2Prim (SpecFloat.binary_normalize FloatOps.prec FloatOps.emax n 0 false) in
  if PrimFloat.is_infinity f then Raise OverflowError else Ok f.

(** [min(a, b)] of two floats: [b] when [b < a], [a] otherwise. *)
Definition float_min (a b : float) : float :=
  if PrimFloat.ltb b a then b else a.

(** The integer nearest to [m / 2^k], ties to the even one. *)
Definition round_half_even (m : Z) (k : Z) : Z :=
  let q := Z.shiftr m k in
  let r := m - Z.shiftl q k in
  let half := Z.shiftl 1 (k - 1) in
  if r <? half then q
  else if half <? r then q + 1
  else if Z.even q then q else q + 1.

(** [round(x)] for a float: an [int], ties to even. *)
Definition round (x : float) : Result Z :=
  match Prim2SF x with
  | SpecFloat.S754_zero _ => Ok 0
  | SpecFloat.S754_finite sign m e =>
      let magnitude :=
        if 0 <=? e then Z.shiftl (Z.pos m) e else round_half_even (Z.pos m) (- e) in
      Ok (if sign then - magnitude else magnitude)
  | SpecFloat.S754_infinity _ => Raise OverflowError
  | SpecFloat.S754_nan => Raise (OtherError "ValueError")
  end.

(** Lines 263-268 of [_parse_details_page]: rating and hits to 0-5 stars. *)
Definition score_stars (rating_val hits : Z) : Result Z :=
  if rating_val =? 0 then
    (* hit_factor = 0, an int: (rating_val + 0) / 2.0 *)
    match float_of_int (rating_val + 0) with
    | Ok s => round (s / 2)%float
    | Raise e => Raise e
    end
  else
    match float_of_int hits with
    | Ok h =>
        let hit_factor := float_min (h / 100)%float 5%float in
        match float_of_int rating_val with
        | Ok r => round ((r + hit_factor) / 2)%float
        | Raise e => Raise e
        end
    | Raise e => Raise e
    end.

End Stars.

(** ** The libraries the provider calls *)

Record Response : Type := {
  status_code : Z;
  text : string;
  res_content : list byte
}.

Inductive Request : Type :=
  | GET (url : string) (params : list (string * string))
  | POST (url : string) (data : list (string * option string)).

(** What the provider does to the outside, in the order it does it. *)
Inductive Event : Type :=
  | NewSession
  | CloseSession
  | Sleep (seconds : Z)
  | Sent (r : Request).

(** A keyword filter of [find] and [find_all]. *)
Inductive AttrFilter : Type :=
  | HasAttr (attr : string)
  | ClassIs (class_ : string)
  | StyleMatches (pattern : string).

(** An opened archive: [namelist()] and [read(name)]. *)
Record Archive : Type := {
  namelist : list string;
  read : string -> Result (list byte)
}.

Class Libraries : Type := {
  (** requests: the answer of the site to a request, given what went
      before; [None] when the request raises [RequestException]. *)
  server : list Event -> Request -> option Response;
  (** [os.environ.get] of the user agent *)
  SZ_USER_AGENT : option string;
  (** the headers of a fresh [Session()] *)
  fresh_headers : gmap string string;
  (** bs4 *)
  Tag : Type;
  BeautifulSoup : string -> Tag;
  find : Tag -> string -> list AttrFilter -> option Tag;
  find_all : Tag -> string -> list AttrFilter -> list Tag;
  tag_text : Tag -> string;
  tag_attr : Tag -> string -> string;
  (** guessit, with the type option when one is given *)
  guessit : string -> option VideoKind -> Result (gmap string PyVal);
  (** subliminal and subliminal_patch *)
  guess_matches : Video -> gmap string PyVal -> Result (gset string);
  get_scores : Video -> gmap string Z;
  SUBTITLE_EXTENSIONS : list string;
  fix_line_ending : list byte -> list byte;
  normalize : Subtitle -> Subtitle;
  (** rarfile and zipfile, on the bytes of the download *)
  RarFile : list byte -> Result Archive;
  ZipFile : list byte -> Result Archive
}.

(** ** The provider *)

(** A session object. [created] is the place in the trace of the call of
    [Session()] that made it: it tells one session object from another. *)
Record Session : Type := {
  created : nat;
  session_headers : gmap string string;
  closed : bool
}.

Record PipocasProvider : Type := {
  username : option string;
  password : option string;
  session : option Session
}.

(** The provider and the trace of what it did. *)
Record State : Type := {
  self : PipocasProvider;
  trace : list Event
}.

(** A method: it reads and writes the state, and returns or raises. *)
Definition M (A : Type) : Type := State -> Result A * State.

Definition ret {A} (a : A) : M A := fun st => (Ok a, st).

Definition raise {A} (e : Exn) : M A := fun st => (Raise e, st).

Definition bind {A B} (m : M A) (k : A -> M B) : M B :=
  fun st =>
    match m st with
    | (Ok a, st') => k a st'
    | (Raise e, st') => (Raise e, st')
    end.

(** [try: m  except ... as e: h e] *)
Definition try_except {A} (m : M A) (h : Exn -> M A) : M A :=
  fun st =>
    match m st with
    | (Ok a, st') => (Ok a, st')
    | (Raise e, st') => h e st'
    end.

Definition lift {A} (r : Result A) : M A := fun st => (r, st).

Definition get_self : M PipocasProvider := fun st => (Ok (self st), st).

Definition emit (e : Event) : M unit :=
  fun st => (Ok tt, {| self := self st; trace := trace st ++ [e] |}).

Definition set_session (s : Session) : M unit :=
  fun st =>
    (Ok tt,
     {| self := {| username := username (self st);
                   password := password (self st);
                   session := Some s |};
        trace := trace st |}).

Declare Scope method_scope.
Delimit Scope method_scope with method.
Notation "x <- c1 ;; c2" := (bind c1 (fun x => c2))
  (at level 100, c1 at next level, right associativity) : method_scope.
Notation "c1 ;; c2" := (bind c1 (fun _ => c2))
  (at level 100, right associativity) : method_scope.
Open Scope method_scope.

Definition AUTH_MARKER : string := "Cria uma conta".
Definition SEARCH_DELAY : Z := 5.

Section Provider.

Context {L : Libraries}.



(** The class attribute [headers]. *)
Definition headers : gmap string string :=
  list_to_map
    [ ("User-Agent", default "Sub-Zero/2" SZ_USER_AGENT);
      ("Accept", "text/html,application/xhtml+xml,application/xml;q=0.9,image/webp,*/*;q=0.8");
      ("Origin", SITE);
      ("Referer", SITE);
      ("Connection", "keep-alive") ].

(** [PipocasProvider.__init__] *)
Definition __init__ (username password : option string) : Result PipocasProvider :=
  let any := Py.truthy_str username || Py.truthy_str password in
  let all := Py.truthy_str username && Py.truthy_str password in
  if any && negb all then Raise ConfigurationError
  else Ok {| username := username; password := password; session := None |}.

(** [self.session.get(...)] and [self.session.post(...)]: without a
    session the attribute access fails; with one the request goes out. *)
Definition send (r : Request) : M Response :=
  fun st =>
    match session (self st) with
    | None => (Raise AttributeError, st)
    | Some _ =>
        let st' := {| self := self st; trace := trace st ++ [Sent r] |} in
        match server (trace st) r with
        | Some res => (Ok res, st')
        | None => (Raise RequestException, st')
        end
    end.

(** The status codes on which [res.raise_for_status()] raises. *)
Definition http_error (res : Response) : bool :=
  (400 <=? status_code res) && (status_code res <? 600).

(** [res.raise_for_status()] *)
Definition raise_for_status (res : Response) : M unit :=
  if http_error res then raise HTTPError else ret tt.

(** The form that [_login] posts. *)
Definition login_form (p : PipocasProvider) (token : string)
    : list (string * option string) :=
  [ ("username", username p); ("password", password p); ("_token", Some token) ].

(** [PipocasProvider._login] *)
Definition _login : M unit :=
  res <- send (GET LOGIN_URL []) ;;
  raise_for_status res ;;
  match Re.TOKEN_RE_search (text res) with
  | None => raise ServiceUnavailable
  | Some token =>
      p <- get_self ;;
      let payload := login_form p token in
      res <- send (POST LOGIN_URL payload) ;;
      raise_for_status res ;;
      if Py.occurs_in AUTH_MARKER (text res) then raise AuthenticationError
      else ret tt
  end.

(** [Session()]: a new session object, with the headers of a fresh
    session. *)
Definition new_session : M Session :=
  fun st =>
    (Ok {| created := length (trace st); session_headers := fresh_headers; closed := false |},
     {| self := self st; trace := trace st ++ [NewSession] |}).

(** [PipocasProvider.initialize] *)
Definition initialize : M unit :=
  p <- get_self ;;
  if negb (Py.truthy_str (username p)) || negb (Py.truthy_str (password p))
  then raise ConfigurationError
  else
    s <- new_session ;;
    set_session {| created := created s;
                   session_headers := headers ∪ session_headers s;
                   closed := closed s |} ;;
    _login.

(** [PipocasProvider.terminate] *)
Definition terminate : M unit :=
  p <- get_self ;;
  match session p with
  | Some s =>
      emit CloseSession ;;
      set_session {| created := created s; session_headers := session_headers s;
                     closed := true |}
  | None => ret tt
  end.

(** [PipocasProvider._build_search_query] *)
Definition _build_search_query (video : Video) : string :=
  let from_name :=
    if Py.truthy_str (video_name video)
    then Py.splitext_root (Py.basename (default EmptyString (video_name video)))
    else EmptyString in
  if is_episode video then
    if Py.truthy_str (video_series video) && Py.truthy_int (video_season video)
       && Py.truthy_int (video_episode video)
    then default EmptyString (video_series video)
         +:+ " S" +:+ Py.format_02d (default 0 (video_season video))
         +:+ "E" +:+ Py.format_02d (default 0 (video_episode video))
    else if Py.truthy_str (video_series video)
    then default EmptyString (video_series video)
    else from_name
  else
    if Py.truthy_str (video_title video)
    then default EmptyString (video_title video)
    else from_name.

(** The loop over the anchors of a details page: the first download id. *)
Fixpoint first_download_id (anchors : list Tag) : option string :=
  match anchors with
  | [] => None
  | a :: rest =>
      match Re.download_id_search (tag_attr a "href") with
      | Some g => Some g
      | None => first_download_id rest
      end
  end.

Definition nonempty (s : string) : bool := Py.truthy_str (Some s).

Definition parsed_release (soup : Tag) : string :=
  match find soup "h3" [ClassIs "title"] with
  | Some title_h3 =>
      match find title_h3 "span" [ClassIs "font-normal"] with
      | Some span =>
          if nonempty (tag_text span) then Py.strip (tag_text span) else EmptyString
      | None => EmptyString
      end
  | None => EmptyString
  end.

Definition parsed_hits (soup : Tag) : Z :=
  match find soup "span" [ClassIs "hits hits-pd"] with
  | Some hits_span =>
      match find hits_span "div" [] with
      | Some div =>
          if nonempty (tag_text div)
          then default 0 (Py.int (Py.strip (tag_text div)))
          else 0
      | None => 0
      end
  | None => 0
  end.

Definition parsed_uploader (soup : Tag) : option string :=
  match find soup "span" [StyleMatches "color:\s*#[0-9A-Fa-f]{3,6}"] with
  | Some span_color =>
      if nonempty (tag_text span_color) then Some (Py.strip (tag_text span_color))
      else None
  | None => None
  end.

Definition parsed_rating (soup : Tag) : Z :=
  match find soup "h2" [ClassIs "mt-3 text-center"] with
  | Some rating_h2 =>
      if nonempty (tag_text rating_h2) then
        match Re.rating_search (tag_text rating_h2) with
        | Some g => default 0 (Py.int g)
        | None => 0
        end
      else 0
  | None => 0
  end.

(** [PipocasProvider._parse_details_page], after the page was fetched. *)
Definition parse_details (video : Video) (language : Language) (page : string)
    : Result (option Subtitle) :=
  let soup := BeautifulSoup page in
  let release := parsed_release soup in
  let sub_id := first_download_id (find_all soup "a" [HasAttr "href"]) in
  if negb (Py.truthy_str sub_id) then Ok None
  else
    let hits := parsed_hits soup in
    let uploader := parsed_uploader soup in
    let rating_val := parsed_rating soup in
    match Stars.score_stars rating_val hits with
    | Ok score_stars =>
        Ok (Some (PipocasSubtitle language video (default EmptyString sub_id)
                    release hits uploader score_stars))
    | Raise e => Raise e
    end.

(** [PipocasProvider._parse_details_page] *)
Definition _parse_details_page (video : Video) (url : string) (language : Language)
    : M (option Subtitle) :=
  res <- send (GET url []) ;;
  raise_for_status res ;;
  lift (parse_details video language (text res)).

Definition INFO_PATH : string := "/legendas/info/".

(** The address of a details page, from the href of a result link. *)
Definition details_href (href : string) : string :=
  if Py.startswith "http" href then href
  else Py.rstrip_char "/"%char SITE +:+ href.

(** The loop of [_search_language] over the result links. *)
Fixpoint search_results (video : Video) (language : Language)
    (anchors : list Tag) (results : list Subtitle) : M (list Subtitle) :=
  match anchors with
  | [] => ret results
  | a :: rest =>
      if negb (Py.occurs_in INFO_PATH (tag_attr a "href"))
      then search_results video language rest results
      else
        sub <- _parse_details_page video (details_href (tag_attr a "href")) language ;;
        match sub with
        | Some sub => search_results video language rest (results ++ [sub])
        | None => search_results video language rest results
        end
  end.

Definition search_params (site_lang query : string) : list (string * string) :=
  [ ("t", "rel"); ("l", site_lang); ("page", "1"); ("s", query) ].

Definition result_links (soup : Tag) : list Tag :=
  find_all soup "a" [HasAttr "href"; ClassIs "text-dark no-decoration"].

(** [PipocasProvider._search_language] *)
Definition _search_language (video : Video) (language : Language) : M (list Subtitle) :=
  let site_lang := get_pipocas_language language in
  if negb (Py.truthy_str site_lang) then ret []
  else
    let query := _build_search_query video in
    if negb (nonempty query) then ret []
    else
      emit (Sleep SEARCH_DELAY) ;;
      res <- send (GET SEARCH_URL (search_params (default EmptyString site_lang) query)) ;;
      raise_for_status res ;;
      if Py.occurs_in AUTH_MARKER (text res) then raise AuthenticationError
      else search_results video language (result_links (BeautifulSoup (text res))) [].

(** The first [except] clause of [list_subtitles]: what is raised again. *)
Definition reraised (e : Exn) : bool :=
  match e with
  | HTTPError | RequestException | AuthenticationError | ServiceUnavailable => true
  | _ => false
  end.

(** The loop of [list_subtitles] over the languages. *)
Fixpoint search_languages (video : Video) (languages : list Language)
    (all_subs : list Subtitle) : M (list Subtitle) :=
  match languages with
  | [] => ret all_subs
  | lang :: rest =>
      all_subs <-
        try_except
          (subs <- _search_language video lang ;; ret (all_subs ++ subs))
          (fun e => if reraised e then raise e else ret all_subs) ;;
      search_languages video rest all_subs
  end.

(** [key(a) < key(b)] for the key [(user_score, hits)] *)
Definition key_lt (a b : Subtitle) : bool :=
  (user_score a <? user_score b)
  || ((user_score a =? user_score b) && (hits a <? hits b)).

(** [all_subs.sort(key=..., reverse=True)]: a stable sort, greatest key
    first; subtitles of equal key keep their order. *)
Fixpoint insert_sorted (x : Subtitle) (l : list Subtitle) : list Subtitle :=
  match l with
  | [] => [x]
  | y :: r => if key_lt x y then y :: insert_sorted x r else x :: l
  end.

Definition sort_reverse (l : list Subtitle) : list Subtitle :=
  foldr insert_sorted [] l.

(** [PipocasProvider.list_subtitles] *)
Definition list_subtitles (video : Video) (languages : list Language) : M (list Subtitle) :=
  all_subs <- search_languages video languages [] ;;
  ret (sort_reverse all_subs).

(** [exts.remove(x)], after the test [x in exts]: the first one goes. *)
Fixpoint remove_first (x : string) (exts : list string) : list string :=
  match exts with
  | [] => []
  | e :: rest => if String.eqb e x then rest else e :: remove_first x rest
  end.

Definition allowed_exts : list string := remove_first ".txt" SUBTITLE_EXTENSIONS.

(** [guessit(os.path.basename(name))], an empty guess when it raises. *)
Definition guess_entry (name : string) : gmap string PyVal :=
  match guessit (Py.basename name) None with
  | Ok guessed => guessed
  | Raise _ => ∅
  end.

(** The entry has a name of a subtitle file: the two first tests of the loop. *)
Definition subtitle_name (name : string) : bool :=
  negb (Py.startswith "." (Py.basename name))
  && Py.endswith_any allowed_exts (Py.lower name).

(** The entry is of another episode than the video: the third test. *)
Definition other_episode (video : Video) (guessed : gmap string PyVal) : bool :=
  is_episode video &&
  match guessed !! "season", guessed !! "episode" with
  | Some season, Some episode =>
      differs season (video_season video) || differs episode (video_episode video)
  | _, _ => false
  end.

(** [sum(scores.get(m, 0) for m in matches)] *)
Definition match_score (scores : gmap string Z) (matches : gset string) : Z :=
  foldr Z.add 0 ((fun m => default 0 (scores !! m)) <$> elements matches).

(** The loop of [_extract_best_from_archive] over [archive.namelist()]. *)
Fixpoint best_entry (video : Video) (scores : gmap string Z) (names : list string)
    (best_name : option string) (best_score : Z) : Result (option string * Z) :=
  match names with
  | [] => Ok (best_name, best_score)
  | name :: rest =>
      if negb (subtitle_name name) then best_entry video scores rest best_name best_score
      else
        let guessed := guess_entry name in
        if other_episode video guessed
        then best_entry video scores rest best_name best_score
        else
          match guess_matches video guessed with
          | Ok matches =>
              let score := match_score scores matches in
              if best_score <? score
              then best_entry video scores rest (Some name) score
              else best_entry video scores rest best_name best_score
          | Raise e => Raise e
          end
  end.

(** [PipocasProvider._extract_best_from_archive] *)
Definition _extract_best_from_archive (archive : Archive) (subtitle : Subtitle)
    : Result (option (list byte)) :=
  let scores := get_scores (video subtitle) in
  match best_entry (video subtitle) scores (namelist archive) None (-1) with
  | Ok (best_name, best_score) =>
      match best_name with
      | Some name =>
          if best_score <=? 0 then Ok None
          else
            match read archive name with
            | Ok data => Ok (Some data)
            | Raise e => Raise e
            end
      | None => Ok None
      end
  | Raise e => Raise e
  end.

(** The end of [download_subtitle]: the content is set and normalized. *)
Definition store (subtitle : Subtitle) (data : list byte) : Subtitle :=
  normalize (set_content subtitle (fix_line_ending data)).

(** Lines 368-374 of [download_subtitle], for an opened archive. *)
Definition from_archive (archive : Archive) (subtitle : Subtitle) : Result Subtitle :=
  match _extract_best_from_archive archive subtitle with
  | Ok (Some (c :: rest)) => Ok (store subtitle (c :: rest))
  | Ok _ => Raise ServiceUnavailable
  | Raise e => Raise e
  end.

(** Lines 352-374 of [download_subtitle], for the body of the response. *)
Definition from_body (data : list byte) (subtitle : Subtitle) : Result Subtitle :=
  match data with
  | [] => Raise ServiceUnavailable
  | _ =>
      let header := take 4 data in
      if Py.bytes_startswith (Py.b "Rar!") header then
        match RarFile data with
        | Ok archive => from_archive archive subtitle
        | Raise e => Raise e
        end
      else if Py.bytes_startswith (Py.b "PK") header then
        match ZipFile data with
        | Ok archive => from_archive archive subtitle
        | Raise e => Raise e
        end
      else Ok (store subtitle data)
  end.

(** Lines 342-374: the function [download_subtitle] that the decorator of
    line 341 is applied to. *)
Definition download_subtitle_body (subtitle : Subtitle) : M Subtitle :=
  res <- send (GET (page_link subtitle) []) ;;
  raise_for_status res ;;
  if Py.occurs_in AUTH_MARKER (text res) then raise AuthenticationError
  else lift (from_body (res_content res) subtitle).

(** [isinstance(e, RequestException)]: [HTTPError] is a subclass of
    [RequestException]. *)
Definition is_RequestException (e : Exn) : bool :=
  match e with
  | RequestException | HTTPError => true
  | _ => false
  end.

(** Modelled from the spec: the decorator [reinitialize_on_error] of the
    host framework (providers/__init__.py), which is not among the sources
    of this module; the specification leaves the retry policy to the
    plugin contract of the host framework. The model follows the name and
    the arguments of the decorator at line 341: the method is run; when it
    raises one of [exceptions] and an attempt is left, the provider is
    terminated and initialized anew and the method is run again; any other
    exception, and an exception of [terminate] or [initialize], goes to
    the caller. *)
Fixpoint reinitialize_on_error (exceptions : Exn -> bool) (attempts : nat) {A}
    (method : M A) : M A :=
  try_except method
    (fun error =>
       if exceptions error then
         match attempts with
         | O => raise error
         | S remaining =>
             terminate ;;
             initialize ;;
             reinitialize_on_error exceptions remaining method
         end
       else raise error).

(** [PipocasProvider.download_subtitle], the method that the host calls:
    [@reinitialize_on_error((RequestException,), attempts=1)] over the
    function of lines 342-374. *)
Definition download_subtitle (subtitle : Subtitle) : M Subtitle :=
  reinitialize_on_error is_RequestException 1 (download_subtitle_body subtitle).

(** The operations of the plugin contract, and one step of the provider. *)
Inductive Operation : Type :=
  | Initialize
  | Terminate
  | ListSubtitles (video : Video) (languages : list Language)
  | DownloadSubtitle (subtitle : Subtitle).

Definition step (op : Operation) (st : State) : State :=
  match op with
  | Initialize => snd (initialize st)
  | Terminate => snd (terminate st)
  | ListSubtitles video languages => snd (list_subtitles video languages st)
  | DownloadSubtitle subtitle => snd (download_subtitle subtitle st)
  end.

Definition run (ops : list Operation) (st : State) : State :=
  foldl (fun st op => step op st) st ops.

(** The requests of a trace. *)
Definition requests (events : list Event) : list Request :=
  omap (fun e => match e with Sent r => Some r | _ => None end) events.

End Provider.

(** ** The properties, in the words of the specification *)

Section Reading.

Context {L : Libraries}.

Definition Result_map {A B} (f : A -> B) (r : Result A) : Result B :=
  match r with
  | Ok a => Ok (f a)
  | Raise e => Raise e
  end.

Definition returns {A} (r : Result A) : Prop := exists a, r = Ok a.

(** A method keeps a relation between the provider before and after. *)
Definition preserves (R : PipocasProvider -> PipocasProvider -> Prop) {A} (m : M A) : Prop :=
  forall st, R (self st) (self (snd (m st))).



(** The container of a download, decided by the first bytes of the body. *)
Inductive Container : Type := RAR | ZIP | RAW.

Definition container (body : list byte) : Container :=
  if Py.bytes_startswith (Py.b "Rar!") body then RAR
  else if Py.bytes_startswith (Py.b "PK") body then ZIP
  else RAW.

(** The body was opened as this archive. *)
Definition opened_as (body : list byte) (archive : Archive) : Prop :=
  (container body = RAR /\ RarFile body = Ok archive)
  \/ (container body = ZIP /\ ZipFile body = Ok archive).

(** The guessed season and episode of an entry, if both present, equal the
    video's. *)
Definition same_episode (video : Video) (name : string) : Prop :=
  forall season episode,
    guess_entry name !! "season" = Some season ->
    guess_entry name !! "episode" = Some episode ->
    differs season (video_season video) = false
    /\ differs episode (video_episode video) = false.

(** The entries an archive is searched among: the basename does not start
    with a dot, the name (in lower case) ends with a subtitle extension
    other than .txt and, for an episode, the guess is of that episode. *)
Definition Candidate (video : Video) (name : string) : Prop :=
  Py.startswith "." (Py.basename name) = false
  /\ (exists ext, ext ∈ SUBTITLE_EXTENSIONS /\ ext <> ".txt"
                  /\ Py.endswith ext (Py.lower name) = true)
  /\ (is_episode video = true -> same_episode video name).

(** The tests an entry passes before it is scored. *)
Definition considered (video : Video) (name : string) : bool :=
  subtitle_name name && negb (other_episode video (guess_entry name)).

(** The sum of the per-match scores of an entry. *)
Definition entry_score (video : Video) (name : string) : Z :=
  match guess_matches video (guess_entry name) with
  | Ok matches => match_score (get_scores video) matches
  | Raise _ => 0
  end.








(** [key(a) >= key(b)] for the key [(user_score, hits)], lexicographic. *)
Definition key_ge (a b : Subtitle) : Prop :=
  user_score b < user_score a
  \/ (user_score b = user_score a /\ hits b <= hits a).

(** The star rating as the formula reads, in float arithmetic:
    [round((rating_val + hit_factor) / 2)] with [hit_factor] the least of
    [hits / 100] and 5 for a rating other than 0, and 0 for a rating 0. *)
Definition hit_factor (rating_val hits : Z) : Result float :=
  if rating_val =? 0 then Ok 0%float
  else Result_map (fun h => Stars.float_min (h / 100)%float 5%float) (Stars.float_of_int hits).

Definition stars_formula (rating_val hits : Z) : Result Z :=
  match hit_factor rating_val hits, Stars.float_of_int rating_val with
  | Ok f, Ok r => Stars.round ((r + f) / 2)%float
  | Raise e, _ => Raise e
  | _, Raise e => Raise e
  end.

End Reading.

(** ** A small site, to run the provider on

    An instance of the libraries: pages are trees given by a table, the
    site answers by the address alone, archives hold four entries. *)

Module Site.

#[warnings="-register-all"]
Inductive Node : Type :=
  | Elem (name : string) (attrs : list (string * string)) (txt : string)
         (children : list Node).

Definition node_name (n : Node) : string := match n with Elem x _ _ _ => x end.
Definition node_attrs (n : Node) : list (string * string) :=
  match n with Elem _ a _ _ => a end.
Definition node_text (n : Node) : string := match n with Elem _ _ t _ => t end.

Fixpoint assoc {A} (k : string) (table : list (string * A)) : option A :=
  match table with
  | [] => None
  | (k', v) :: rest => if String.eqb k' k then Some v else assoc k rest
  end.

(** The tags below a node, in document order. *)
Fixpoint descendants (n : Node) : list Node :=
  match n with
  | Elem _ _ _ children => flat_map (fun c => c :: descendants c) children
  end.

Definition passes (n : Node) (f : AttrFilter) : bool :=
  match f with
  | HasAttr a => bool_decide (is_Some (assoc a (node_attrs n)))
  | ClassIs c => bool_decide (assoc "class" (node_attrs n) = Some c)
  | StyleMatches _ => bool_decide (is_Some (assoc "style" (node_attrs n)))
  end.

Definition select_all (n : Node) (name : string) (filters : list AttrFilter) : list Node :=
  List.filter (fun d => String.eqb (node_name d) name && forallb (passes d) filters)
    (descendants n).

Definition select (n : Node) (name : string) (filters : list AttrFilter) : option Node :=
  head (select_all n name filters).

Definition attr (n : Node) (a : string) : string :=
  default EmptyString (assoc a (node_attrs n)).

Definition link (href : string) : Node :=
  Elem "a" [("href", href); ("class", "text-dark no-decoration")] EmptyString [].

Definition details (rel id hits rating : string) : Node :=
  Elem "html" [] EmptyString
    [ Elem "h3" [("class", "title")] EmptyString
        [ Elem "span" [("class", "font-normal")] rel [] ];
      Elem "a" [("href", "/legendas/download/" +:+ id)] "Download" [];
      Elem "span" [("class", "hits hits-pd")] EmptyString [ Elem "div" [] hits [] ];
      Elem "span" [("style", "color: #ff0000")] " ana " [];
      Elem "h2" [("class", "mt-3 text-center")] rating [] ].

Definition login_page : string := Re.TOKEN_OPEN +:+ "tok123" +:+ Re.TOKEN_CLOSE.

(** The pages of the site, by their text. *)
Definition pages : list (string * Node) :=
  [ ("results",
     Elem "html" [] EmptyString
       [ link "/legendas/info/1"; link "/about"; link "/legendas/info/2";
         link "/legendas/info/3" ]);
    ("details 1", details " Show.S01E02.720p " "11" "250" "Rating 8/10");
    ("details 2", details "Show.S01E02.1080p" "22" " 1200 " "9 / 10");
    ("details 3", Elem "html" [] EmptyString []) ].

Definition parse (page : string) : Node :=
  default (Elem "html" [] EmptyString []) (assoc page pages).

Definition page (status : Z) (body : string) : Response :=
  {| status_code := status; text := body; res_content := Py.b body |}.

Definition url_of (r : Request) : string :=
  match r with GET u _ => u | POST u _ => u end.

(** The answers of the site; [broken] is an address that answers 404. *)
Definition answers (broken : string) (events : list Event) (r : Request) : option Response :=
  let u := url_of r in
  if String.eqb u broken then Some (page 404 "not found")
  else if String.eqb u LOGIN_URL then
    match r with
    | GET _ _ => Some (page 200 login_page)
    | POST _ _ => Some (page 200 "Bem-vindo")
    end
  else if String.eqb u SEARCH_URL then Some (page 200 "results")
  else if String.eqb u (SITE +:+ "/legendas/info/1") then Some (page 200 "details 1")
  else if String.eqb u (SITE +:+ "/legendas/info/2") then Some (page 200 "details 2")
  else if String.eqb u (SITE +:+ "/legendas/info/3") then Some (page 200 "details 3")
  else if String.eqb u (DOWNLOAD_URL "11") then Some (page 200 "1 00:00:01 Ola")
  else if String.eqb u (DOWNLOAD_URL "22") then Some (page 200 "PK archive")
  else if String.eqb u (DOWNLOAD_URL "33") then Some (page 200 "Cria uma conta")
  else None.

Definition guesses : list (string * list (string * PyVal)) :=
  [ ("Show.S01E01.srt", [("season", VInt 1); ("episode", VInt 1)]);
    ("Show.S01E02.srt", [("season", VInt 1); ("episode", VInt 2)]);
    ("Show.S01E02.HDTV.SRT", [("season", VInt 1); ("episode", VInt 2); ("source", VStr "HDTV")]);
    ("Show.srt", [("title", VStr "Show")]) ].

Definition guess (name : string) (kind : option VideoKind) : Result (gmap string PyVal) :=
  match assoc name guesses with
  | Some g => Ok (list_to_map g)
  | None => Raise (OtherError "guessit")
  end.

Definition matches_of (video : Video) (guessed : gmap string PyVal) : Result (gset string) :=
  let season : gset string :=
    match guessed !! "season" with
    | Some v => if differs v (video_season video) then ∅ else {["season"]}
    | None => ∅
    end in
  let episode : gset string :=
    match guessed !! "episode" with
    | Some v => if differs v (video_episode video) then ∅ else {["episode"]}
    | None => ∅
    end in
  let source : gset string :=
    match guessed !! "source" with
    | Some _ => {["source"]}
    | None => ∅
    end in
  Ok (season ∪ episode ∪ source).

Definition scores : gmap string Z :=
  list_to_map [("season", 30); ("episode", 30); ("source", 7); ("series", 180)].

Definition archive : Archive :=
  {| namelist := [".Show.S01E02.srt"; "Show.S01E02.txt"; "Show.S01E01.srt";
                  "Show.S01E02.srt"; "sub/Show.S01E02.HDTV.SRT"; "Show.srt"];
     read := fun name => Ok (Py.b name) |}.

Definition libraries (broken : string) : Libraries :=
  {| server := answers broken;
     SZ_USER_AGENT := None;
     fresh_headers := ∅;
     Tag := Node;
     BeautifulSoup := parse;
     find := select;
     find_all := select_all;
     tag_text := node_text;
     tag_attr := attr;
     guessit := guess;
     guess_matches := matches_of;
     get_scores := fun _ => scores;
     SUBTITLE_EXTENSIONS := [".srt"; ".sub"; ".smi"; ".txt"; ".ssa"; ".ass"; ".mpl"];
     fix_line_ending := fun data => data;
     normalize := fun subtitle => subtitle;
     RarFile := fun _ => Raise (OtherError "BadRarFile");
     ZipFile := fun _ => Ok archive |}.

Definition credentials : PipocasProvider :=
  {| username := Some "user"; password := Some "secret"; session := None |}.

Definition fresh : State := {| self := credentials; trace := [] |}.

(** The state after [initialize] on the site with no broken address. *)
Definition logged_in : State := snd (@initialize (libraries EmptyString) fresh).

Definition por : Language := {| alpha3 := "por"; country := None |}.
Definition fra : Language := {| alpha3 := "fra"; country := None |}.

Definition show (season episode : Z) : Video :=
  {| video_kind := Episode;
     video_name := Some "/tv/Show.S01E02.mkv";
     video_title := None;
     video_year := Some 2019;
     video_series := Some "Show";
     video_season := Some season;
     video_episode := Some episode |}.

Definition subtitle (id rel : string) (video : Video) : Subtitle :=
  PipocasSubtitle por video id rel 1 None 2.

(** A provider with a session, before any request. *)
Definition opened : State :=
  {| self := {| username := Some "user"; password := Some "secret";
                session := Some {| created := 0; session_headers := ∅; closed := false |} |};
     trace := [NewSession] |}.

(** The site with every address answering. *)
Definition up : Libraries := libraries EmptyString.

End Site.

(** ** More of the module, and more readings *)

Section Further.

Context {L : Libraries}.

(** [PipocasSubtitle.provider_name] *)
Definition provider_name : string := "pipocas".

(** The property [id] of a [PipocasSubtitle]: provider name, underscore,
    subtitle id. *)
Definition Subtitle_id (subtitle : Subtitle) : string :=
  provider_name +:+ "_" +:+ sub_id subtitle.

(** The class attribute [languages] of the provider. *)
Definition languages : list Language :=
  [ {| alpha3 := "por"; country := None |};
    {| alpha3 := "por"; country := Some "BR" |};
    {| alpha3 := "eng"; country := None |};
    {| alpha3 := "spa"; country := None |} ].

(** The rows of [PIPOCAS_LANGUAGE_MAP], as a list. *)
Definition LANGUAGE_ROWS : list (string * option string * string) :=
  [ (("por", None), "portugues");
    (("por", Some "PT"), "portugues");
    (("por", Some "BR"), "brasileiro");
    (("eng", None), "ingles");
    (("eng", Some "US"), "ingles");
    (("eng", Some "GB"), "ingles");
    (("spa", None), "espanhol");
    (("spa", Some "ES"), "espanhol");
    (("spa", Some "MX"), "espanhol") ].

(** The star rating in exact arithmetic: the integer nearest to
    [(rating_val + hit_factor) / 2], ties to even, where [hit_factor] is
    0 for a rating 0 and the least of [hits / 100] and 5 otherwise; the
    quotient is that of [100 * rating_val + min(hits, 500)] by 200. *)
Definition exact_stars (rating_val hits : Z) : Z :=
  let n := 100 * rating_val + (if rating_val =? 0 then 0 else Z.min hits 500) in
  let q := n / 200 in
  let r := n mod 200 in
  if r <? 100 then q
  else if 100 <? r then q + 1
  else if Z.even q then q else q + 1.

(** The integers from [lo], [count] of them. *)
Definition Z_range (lo : Z) (count : nat) : list Z :=
  (fun k => lo + Z.of_nat k) <$> seq 0 count.

(** The float computation and the exact one agree on a rating and a
    number of hits, and the stars are between 0 and 8. *)
Definition stars_agree (rating_val hits : Z) : bool :=
  match Stars.score_stars rating_val hits with
  | Ok stars => (stars =? exact_stars rating_val hits) && (0 <=? stars) && (stars <=? 8)
  | Raise _ => false
  end.

(** A method adds to the trace only events that satisfy [P]. *)
Definition emits (P : Event -> Prop) {A} (m : M A) : Prop :=
  forall st, exists events,
    trace (snd (m st)) = trace st ++ events /\ Forall P events.

(** The requests the provider may send: a form goes to the login address
    only, and query parameters to the search address only. *)
Definition expected (e : Event) : Prop :=
  match e with
  | Sent (POST url _) => url = LOGIN_URL
  | Sent (GET url params) => params = [] \/ url = SEARCH_URL
  | _ => True
  end.

(** What holds of every subtitle found for a video among languages. *)
Definition found_for (video0 : Video) (langs : list Language) (sub : Subtitle) : Prop :=
  video sub = video0
  /\ language sub ∈ langs
  /\ Py.truthy_str (get_pipocas_language (language sub)) = true
  /\ sub_id sub <> EmptyString
  /\ uploader sub <> EmptyString
  /\ page_link sub = DOWNLOAD_URL (sub_id sub)
  /\ content sub = None.

(** The subtitles of a list that have a given key [(user_score, hits)]. *)
Definition with_key (score count : Z) (l : list Subtitle) : list Subtitle :=
  List.filter (fun sub => (user_score sub =? score) && (hits sub =? count)) l.

(** An archive that holds the subtitle of an episode twice. *)
Definition twice : Archive :=
  {| namelist := ["Show.S01E01.srt"; "Show.S01E02.srt"; "old/Show.S01E02.srt"; "Show.srt"];
     read := fun name => Ok (Py.b name) |}.

(** No place of [pre] starts the opening of the csrf-token tag in
    [pre ++ rest]. *)
Definition no_opening_in (pre rest : string) : Prop :=
  forall pre1 pre2,
    pre = pre1 +:+ pre2 -> pre2 <> EmptyString ->
    Re.literal_ci Re.TOKEN_OPEN (pre2 +:+ rest) = false.

(** A string has no double or single quote. *)
Fixpoint unquoted (s : string) : bool :=
  match s with
  | EmptyString => true
  | String c r => Re.not_quote c && unquoted r
  end.

(** A string is empty or starts with a quote: what may follow the id of
    a download link. *)
Definition ends_id (post : string) : bool :=
  match post with
  | EmptyString => true
  | String c _ => negb (Re.not_quote c)
  end.

(** No place of [pre] starts the download path in [pre ++ rest]. *)
Definition no_path_in (pre rest : string) : Prop :=
  forall pre1 pre2,
    pre = pre1 +:+ pre2 -> pre2 <> EmptyString ->
    Py.startswith Re.DOWNLOAD_PATH (pre2 +:+ rest) = false.


(** A string has no newline and no double quote. *)
Fixpoint plain_token (t : string) : bool :=
  match t with
  | EmptyString => true
  | String c r =>
      negb (Ascii.eqb c Py.newline) && negb (Ascii.eqb c Py.dquote) && plain_token r
  end.

(** A string has no newline. *)
Fixpoint one_line (t : string) : bool :=
  match t with
  | EmptyString => true
  | String c r => negb (Ascii.eqb c Py.newline) && one_line r
  end.

End Further.

(** Membership in a list that is written out. *)
Ltac in_list :=
  solve [repeat (first [apply list_elem_of_here | apply list_elem_of_further])].

(** The cases of a row of the table of languages. *)
Ltac rows H :=
  unfold LANGUAGE_ROWS in H; simpl in H;
  repeat (apply elem_of_cons in H; destruct H as [H | H]; [simplify_eq |]);
  try (apply elem_of_nil in H; contradiction).

(** * Properties *)

(** ** The model at work *)

Example lower_ex : Py.lower "Show.S01E02" = "show.s01e02".
Proof. reflexivity. Qed.

Example format_02d_ex :
  (Py.format_02d 3, Py.format_02d 12, Py.format_02d 0, Py.format_02d (-4), Py.format_02d 123)
  = ("03", "12", "00", "-4", "123").
Proof. reflexivity. Qed.

Example int_ex :
  (Py.int " 42 ", Py.int "-7", Py.int "1_000", Py.int "1__0", Py.int "", Py.int "4x")
  = (Some 42, Some (-7), Some 1000, None, None, None).
Proof. reflexivity. Qed.

Example splitext_ex :
  (Py.splitext_root (Py.basename "/tv/Show.S01E02.mkv"),
   Py.splitext_root ".hidden", Py.splitext_root "a/b.c/d", Py.basename "a/")
  = ("Show.S01E02", ".hidden", "a/b.c/d", "").
Proof. reflexivity. Qed.

Example occurs_ex :
  (Py.occurs_in "s01" "show.s01e02", Py.occurs_in "" "", Py.occurs_in "s02" "show.s01e02",
   Py.endswith ".srt" "a.srt", Py.endswith ".srt" "a.srt.txt")
  = (true, true, false, true, false).
Proof. reflexivity. Qed.

Example token_ex :
  (Re.TOKEN_RE_search Site.login_page, Re.TOKEN_RE_search "<html>no token</html>")
  = (Some "tok123", None).
Proof. reflexivity. Qed.

Example rating_ex :
  (Re.rating_search "Rating 8/10", Re.rating_search "9 / 10", Re.rating_search "12/ x 3 /4",
   Re.rating_search "no rating")
  = (Some "8", Some "9", Some "3", None).
Proof. reflexivity. Qed.

Example score_stars_ex :
  (Stars.score_stars 8 250, Stars.score_stars 5 0, Stars.score_stars 7 0,
   Stars.score_stars 9 1200, Stars.score_stars 0 100000, Stars.score_stars 1 (-12345))
  = (Ok 5, Ok 2, Ok 4, Ok 7, Ok 0, Ok (-61)).
Proof. vm_compute. reflexivity. Qed.

Example initialize_ex :
  @initialize (Site.libraries EmptyString) Site.fresh
  = (Ok tt,
     {| self := {| username := Some "user"; password := Some "secret";
                   session := Some {| created := 0;
                                      session_headers := @headers (Site.libraries EmptyString);
                                      closed := false |} |};
        trace := [ NewSession;
                   Sent (GET LOGIN_URL []);
                   Sent (POST LOGIN_URL [("username", Some "user"); ("password", Some "secret");
                                         ("_token", Some "tok123")]) ] |}).
Proof. vm_compute. reflexivity. Qed.

Example list_subtitles_ex :
  (fun r => (Result_map (fmap (fun sub => (sub_id sub, release sub, hits sub, user_score sub))) (fst r),
             length (requests (trace (snd r)))))
    (@list_subtitles (Site.libraries EmptyString) (Site.show 1 2) [Site.fra; Site.por]
       Site.logged_in)
  = (Ok [("22", "Show.S01E02.1080p", 1200, 7); ("11", "Show.S01E02.720p", 250, 5)], 6%nat).
Proof. vm_compute. reflexivity. Qed.

Example best_entry_ex :
  @best_entry (Site.libraries EmptyString) (Site.show 1 2) Site.scores
    (namelist Site.archive) None (-1)
  = Ok (Some "sub/Show.S01E02.HDTV.SRT", 67).
Proof. vm_compute. reflexivity. Qed.

Section Properties.

Context {L : Libraries}.

(** ** Languages *)

(** C9: [get_pipocas_language] returns the mapping of (alpha3, country) when
    there is one, otherwise the mapping of (alpha3, None), otherwise None; and
    when it returns None, [_search_language] returns the empty list, leaves
    the state as it was and so sends no request. *)
Theorem C9_language_fallback (language : Language) :
  (forall site_lang,
      PIPOCAS_LANGUAGE_MAP !! (alpha3 language, country language) = Some site_lang ->
      get_pipocas_language language = Some site_lang)
  /\ (PIPOCAS_LANGUAGE_MAP !! (alpha3 language, country language) = None ->
      get_pipocas_language language = PIPOCAS_LANGUAGE_MAP !! (alpha3 language, None))
  /\ (get_pipocas_language language = None ->
      forall video st, _search_language video language st = (Ok [], st)).
Proof.
  unfold get_pipocas_language. repeat split.
  - intros site_lang Hkey. now rewrite Hkey.
  - intros Hkey. now rewrite Hkey.
  - intros Hnone video st. unfold _search_language, get_pipocas_language.
    rewrite Hnone. reflexivity.
Qed.

(** ** Construction and initialization *)

(** C5: the constructor raises [ConfigurationError] whenever exactly one of
    username and password is set (holds a non-empty string), and builds
    the provider, without a session, otherwise; [initialize] raises
    [ConfigurationError] whenever one of them is missing, with the provider
    and the trace as they were: no session was created and no request
    sent. *)
Theorem C5_no_unauthenticated_provider (user pass : option string) (st : State) :
  (xorb (Py.truthy_str user) (Py.truthy_str pass) = true ->
   __init__ user pass = Raise ConfigurationError)
  /\ (xorb (Py.truthy_str user) (Py.truthy_str pass) = false ->
      __init__ user pass = Ok {| username := user; password := pass; session := None |})
  /\ (Py.truthy_str (username (self st)) = false
      \/ Py.truthy_str (password (self st)) = false ->
      initialize st = (Raise ConfigurationError, st)).
Proof.
  split; [| split].
  - unfold __init__.
    destruct (Py.truthy_str user), (Py.truthy_str pass); simpl; intros Hx;
      try discriminate; reflexivity.
  - unfold __init__.
    destruct (Py.truthy_str user), (Py.truthy_str pass); simpl; intros Hx;
      try discriminate; reflexivity.
  - intros Hmissing. unfold initialize, bind, get_self.
    destruct Hmissing as [-> | ->]; simpl.
    + reflexivity.
    + rewrite orb_true_r. reflexivity.
Qed.

(** ** What a method does to the provider *)

Section Preservation.

(** A relation between the provider before and after, closed under
    sequencing. *)
Variable R : PipocasProvider -> PipocasProvider -> Prop.
Hypothesis R_refl : forall p, R p p.
Hypothesis R_trans : forall p q r, R p q -> R q r -> R p r.

Lemma preserves_ret {A} (a : A) : preserves R (ret a).
Proof. intros st. apply R_refl. Qed.

Lemma preserves_raise {A} (e : Exn) : preserves R (@raise A e).
Proof. intros st. apply R_refl. Qed.


Lemma preserves_get_self : preserves R get_self.
Proof. intros st. apply R_refl. Qed.


Lemma preserves_send (r : Request) : preserves R (send r).
Proof.
  intros st. unfold send.
  destruct (session (self st)); [destruct (server (trace st) r) |]; apply R_refl.
Qed.

Lemma preserves_bind {A B} (m : M A) (k : A -> M B) :
  preserves R m -> (forall a, preserves R (k a)) -> preserves R (bind m k).
Proof.
  intros Hm Hk st. unfold bind.
  specialize (Hm st). destruct (m st) as [[a | e] st']; simpl in *.
  - eapply R_trans; [exact Hm | apply Hk].
  - exact Hm.
Qed.


Lemma preserves_raise_for_status (res : Response) : preserves R (raise_for_status res).
Proof.
  unfold raise_for_status. destruct (http_error res);
    [apply preserves_raise | apply preserves_ret].
Qed.

Lemma preserves__login : preserves R _login.
Proof.
  unfold _login.
  apply preserves_bind; [apply preserves_send | intros res].
  apply preserves_bind; [apply preserves_raise_for_status | intros _].
  destruct (Re.TOKEN_RE_search (text res)); [| apply preserves_raise].
  apply preserves_bind; [apply preserves_get_self | intros p].
  apply preserves_bind; [apply preserves_send | intros res'].
  apply preserves_bind; [apply preserves_raise_for_status | intros _].
  destruct (Py.occurs_in AUTH_MARKER (text res'));
    [apply preserves_raise | apply preserves_ret].
Qed.







(** When the relation also allows a new session, the two remaining
    methods preserve it. *)
Hypothesis R_session :
  forall p s, R p {| username := username p; password := password p; session := Some s |}.







End Preservation.





(** With no attempt left the decorator changes nothing. *)
Lemma reinitialize_on_error_O {A} (exceptions : Exn -> bool) (method : M A) (st : State) :
  reinitialize_on_error exceptions 0 method st = method st.
Proof.
  cbn [reinitialize_on_error]. unfold try_except.
  destruct (method st) as [[a | e] st1]; [reflexivity |].
  destruct (exceptions e); reflexivity.
Qed.

(** [download_subtitle], by what the function under the decorator does:
    its outcome, but for a [RequestException], after which the provider
    is terminated and initialized and the function is run once more. *)
Lemma download_subtitle_unfold (subtitle : Subtitle) (st : State) :
  download_subtitle subtitle st =
  match download_subtitle_body subtitle st with
  | (Raise e, st1) =>
      if is_RequestException e
      then (terminate ;; initialize ;; download_subtitle_body subtitle) st1
      else (Raise e, st1)
  | outcome => outcome
  end.
Proof.
  unfold download_subtitle. cbn [reinitialize_on_error]. unfold try_except at 1.
  destruct (download_subtitle_body subtitle st) as [[sub | e] st1]; [reflexivity |].
  destruct (is_RequestException e); [| reflexivity].
  unfold bind. destruct (terminate st1) as [[[] | e1] st2]; [| reflexivity].
  destruct (initialize st2) as [[[] | e2] st3]; [| reflexivity].
  fold (@reinitialize_on_error L is_RequestException 0 Subtitle
          (download_subtitle_body subtitle)).
  apply reinitialize_on_error_O.
Qed.

(** The method gives what the function under the decorator gives, unless
    that raises a [RequestException]. *)
Lemma download_subtitle_passes (subtitle : Subtitle) (st : State) :
  (forall e, fst (download_subtitle_body subtitle st) = Raise e ->
             is_RequestException e = false) ->
  download_subtitle subtitle st = download_subtitle_body subtitle st.
Proof.
  intros Hpass. rewrite download_subtitle_unfold.
  destruct (download_subtitle_body subtitle st) as [[sub | e] st1]; [reflexivity |].
  rewrite (Hpass e eq_refl). reflexivity.
Qed.



Lemma _login_self st : self (snd (_login st)) = self st.
Proof.
  symmetry.
  apply (preserves__login eq (fun p => eq_refl) (fun p q r => @eq_trans _ p q r)).
Qed.




(** ** The star rating *)

Lemma int_or_zero (n : Z) : Py.int_or (Some n) 0 = n.
Proof.
  unfold Py.int_or, Py.truthy_int. destruct (Z.eqb_spec n 0); simpl; congruence.
Qed.

Lemma score_stars_formula (rating_val hits stars : Z) :
  Stars.score_stars rating_val hits = Ok stars ->
  stars_formula rating_val hits = Ok stars.
Proof.
  unfold Stars.score_stars, stars_formula, hit_factor.
  destruct (Z.eqb_spec rating_val 0) as [-> | Hne].
  - intros H. exact H.
  - destruct (Stars.float_of_int hits) as [h | e]; simpl; [| discriminate].
    destruct (Stars.float_of_int rating_val) as [r | e]; [| discriminate].
    intros H. exact H.
Qed.

Lemma score_stars_zero (hits : Z) : Stars.score_stars 0 hits = Ok 0.
Proof. reflexivity. Qed.

(** C10: on every details page that parses to a subtitle, the stars of the
    subtitle are [round((rating_val + hit_factor) / 2)], with [hit_factor]
    the least of [hits / 100] and 5 when the rating is not 0, and 0 when it
    is; in particular a rating of 0 gives 0 stars, whatever the hits. *)
Theorem C10_score_stars (video : Video) (language : Language) (page : string)
    (sub : Subtitle) :
  parse_details video language page = Ok (Some sub) ->
  stars_formula (parsed_rating (BeautifulSoup page)) (parsed_hits (BeautifulSoup page))
  = Ok (user_score sub)
  /\ hits sub = parsed_hits (BeautifulSoup page)
  /\ (parsed_rating (BeautifulSoup page) = 0 -> user_score sub = 0).
Proof.
  unfold parse_details.
  destruct (negb (Py.truthy_str
                    (first_download_id (find_all (BeautifulSoup page) "a" [HasAttr "href"]))));
    [discriminate |].
  destruct (Stars.score_stars (parsed_rating (BeautifulSoup page))
              (parsed_hits (BeautifulSoup page))) as [stars | e] eqn:Hstars;
    [| discriminate].
  intros Hsub. injection Hsub as <-. simpl.
  rewrite !int_or_zero. split; [| split].
  - apply score_stars_formula. exact Hstars.
  - reflexivity.
  - intros Hzero. rewrite Hzero, score_stars_zero in Hstars. congruence.
Qed.

(** ** The order of the result *)

Lemma key_lt_ge (x y : Subtitle) : key_lt x y = true -> key_ge y x.
Proof. unfold key_lt, key_ge. lia. Qed.

Lemma key_not_lt_ge (x y : Subtitle) : key_lt x y = false -> key_ge x y.
Proof. unfold key_lt, key_ge. lia. Qed.

Lemma key_ge_trans (x y z : Subtitle) : key_ge x y -> key_ge y z -> key_ge x z.
Proof. unfold key_ge. lia. Qed.

Lemma insert_sorted_Forall (P : Subtitle -> Prop) (x : Subtitle) (l : list Subtitle) :
  P x -> Forall P l -> Forall P (insert_sorted x l).
Proof.
  intros Hx Hl. induction Hl as [| y r Hy Hr IH]; simpl.
  - constructor; [exact Hx | constructor].
  - destruct (key_lt x y); constructor; auto.
Qed.

Lemma insert_sorted_sorted (x : Subtitle) (l : list Subtitle) :
  StronglySorted key_ge l -> StronglySorted key_ge (insert_sorted x l).
Proof.
  intros Hl. induction Hl as [| y r Hr IH Hy]; simpl.
  - constructor; constructor.
  - destruct (key_lt x y) eqn:Hlt.
    + constructor; [exact IH |].
      apply insert_sorted_Forall; [apply key_lt_ge; exact Hlt | exact Hy].
    + constructor; [constructor; assumption |].
      constructor; [apply key_not_lt_ge; exact Hlt |].
      eapply Forall_impl; [exact Hy |].
      intros z Hz. eapply key_ge_trans; [apply key_not_lt_ge; exact Hlt | exact Hz].
Qed.

Lemma sort_reverse_sorted (l : list Subtitle) : StronglySorted key_ge (sort_reverse l).
Proof.
  unfold sort_reverse. induction l as [| x l IH]; simpl.
  - constructor.
  - apply insert_sorted_sorted. exact IH.
Qed.

Lemma insert_sorted_Permutation (x : Subtitle) (l : list Subtitle) :
  Permutation (insert_sorted x l) (x :: l).
Proof.
  induction l as [| y r IH]; simpl; [reflexivity |].
  destruct (key_lt x y); [| reflexivity].
  rewrite IH. apply perm_swap.
Qed.

Lemma sort_reverse_Permutation (l : list Subtitle) : Permutation (sort_reverse l) l.
Proof.
  unfold sort_reverse. induction l as [| x l IH]; simpl; [reflexivity |].
  rewrite insert_sorted_Permutation, IH. reflexivity.
Qed.

(** C8: the list that [list_subtitles] returns is in non-increasing
    lexicographic order of [(user_score, hits)]: every subtitle of the list
    has a key at least that of every later one, for any order of the
    languages and of the results. *)
Theorem C8_sorted_by_score_and_hits (video : Video) (languages : list Language)
    (st st' : State) (subs : list Subtitle) :
  list_subtitles video languages st = (Ok subs, st') ->
  StronglySorted key_ge subs.
Proof.
  unfold list_subtitles, bind, ret.
  destruct (search_languages video languages [] st) as [[all_subs | e] st1];
    [| discriminate].
  intros H. injection H as <- _. apply sort_reverse_sorted.
Qed.

(** ** Downloads *)

Lemma requests_snoc (events : list Event) (r : Request) :
  requests (events ++ [Sent r]) = requests events ++ [r].
Proof. unfold requests. rewrite omap_app. reflexivity. Qed.

Lemma bytes_startswith_take (p data : list byte) (n : nat) :
  (length p <= n)%nat ->
  Py.bytes_startswith p (take n data) = Py.bytes_startswith p data.
Proof.
  revert data n. induction p as [| x p IH]; intros data n Hn; [reflexivity |].
  destruct n as [| n]; simpl in Hn; [lia |].
  destruct data as [| y data]; simpl; [reflexivity |].
  rewrite IH by lia. reflexivity.
Qed.

Lemma send_answered (r : Request) (st : State) (s : Session) (res : Response) :
  session (self st) = Some s ->
  server (trace st) r = Some res ->
  send r st = (Ok res, {| self := self st; trace := trace st ++ [Sent r] |}).
Proof. intros Hs Hres. unfold send. rewrite Hs, Hres. reflexivity. Qed.

(** What the function [download_subtitle] does with an answer that passes
    its checks. *)
Lemma download_subtitle_answered (subtitle : Subtitle) (st : State) (s : Session)
    (res : Response) :
  session (self st) = Some s ->
  server (trace st) (GET (page_link subtitle) []) = Some res ->
  http_error res = false ->
  Py.occurs_in AUTH_MARKER (text res) = false ->
  res_content res <> [] ->
  download_subtitle_body subtitle st =
  (match container (res_content res) with
   | RAR =>
       match RarFile (res_content res) with
       | Ok archive => from_archive archive subtitle
       | Raise e => Raise e
       end
   | ZIP =>
       match ZipFile (res_content res) with
       | Ok archive => from_archive archive subtitle
       | Raise e => Raise e
       end
   | RAW => Ok (normalize (set_content subtitle (fix_line_ending (res_content res))))
   end,
   {| self := self st; trace := trace st ++ [Sent (GET (page_link subtitle) [])] |}).
Proof.
  intros Hs Hres Hok Hmarker Hbody.
  unfold download_subtitle_body, bind.
  rewrite (send_answered _ _ _ _ Hs Hres).
  unfold raise_for_status. rewrite Hok. unfold ret. rewrite Hmarker.
  unfold lift, from_body, container.
  destruct (res_content res) as [| c body] eqn:Hdata; [congruence |].
  rewrite !bytes_startswith_take by (simpl; lia).
  destruct (Py.bytes_startswith (Py.b "Rar!") (c :: body)); [reflexivity |].
  destruct (Py.bytes_startswith (Py.b "PK") (c :: body)); reflexivity.
Qed.

(** C1, amended: when the download is answered without an HTTP error
    status, the text of the answer does not hold the marker of the login
    page and the body is not empty, [download_subtitle] decides the
    container by the first bytes of the body: a body that starts with
    Rar! is opened as a RAR archive, else one that starts with PK as a
    ZIP archive, and any other body itself, after [fix_line_ending] and
    [normalize], becomes the content of the subtitle that is returned,
    with no archive opened. One request was sent. This is what the
    function under the decorator does, and what the method does whenever
    the outcome is no [RequestException], as for a body that is no
    archive. *)
Theorem C1_container_by_magic_bytes (subtitle : Subtitle) (st : State) (s : Session)
    (res : Response) :
  session (self st) = Some s ->
  server (trace st) (GET (page_link subtitle) []) = Some res ->
  http_error res = false ->
  Py.occurs_in AUTH_MARKER (text res) = false ->
  res_content res <> [] ->
  download_subtitle_body subtitle st =
  (match container (res_content res) with
   | RAR =>
       match RarFile (res_content res) with
       | Ok archive => from_archive archive subtitle
       | Raise e => Raise e
       end
   | ZIP =>
       match ZipFile (res_content res) with
       | Ok archive => from_archive archive subtitle
       | Raise e => Raise e
       end
   | RAW => Ok (normalize (set_content subtitle (fix_line_ending (res_content res))))
   end,
   {| self := self st; trace := trace st ++ [Sent (GET (page_link subtitle) [])] |})
  /\ ((forall e, fst (download_subtitle_body subtitle st) = Raise e ->
                 is_RequestException e = false) ->
      download_subtitle subtitle st = download_subtitle_body subtitle st)
  /\ (container (res_content res) = RAW ->
      download_subtitle subtitle st = download_subtitle_body subtitle st).
Proof.
  intros Hs Hres Hok Hmarker Hbody.
  pose proof (download_subtitle_answered _ _ _ _ Hs Hres Hok Hmarker Hbody) as Hanswered.
  split; [exact Hanswered |]. split; [apply download_subtitle_passes |].
  intros Hraw. apply download_subtitle_passes.
  rewrite Hanswered, Hraw. discriminate.
Qed.

(** ** Login *)





(** ** Matches *)





(** ** The choice of an archive entry *)

Lemma elem_of_remove_first (x e : string) (exts : list string) :
  NoDup exts -> e ∈ remove_first x exts <-> e ∈ exts /\ e <> x.
Proof.
  intros Hnodup. induction Hnodup as [| e0 rest Hnotin Hrest IH]; simpl.
  - rewrite elem_of_nil. tauto.
  - destruct (String.eqb_spec e0 x) as [-> | Hne].
    + rewrite elem_of_cons. split.
      * intros He. split; [right; exact He |]. intros ->. contradiction.
      * intros [[-> | He] Hx]; [contradiction | exact He].
    + rewrite !elem_of_cons, IH. split.
      * intros [-> | [He Hx]]; [split; [left; reflexivity | exact Hne] |].
        split; [right; exact He | exact Hx].
      * intros [[-> | He] Hx]; [left; reflexivity | right; split; assumption].
Qed.

Lemma endswith_any_spec (sufs : list string) (s : string) :
  Py.endswith_any sufs s = true <-> exists suf, suf ∈ sufs /\ Py.endswith suf s = true.
Proof.
  unfold Py.endswith_any. rewrite existsb_exists. split.
  - intros [suf [Hin Hs]]. exists suf. rewrite list_elem_of_In. auto.
  - intros [suf [Hin Hs]]. exists suf. rewrite <- list_elem_of_In. auto.
Qed.

Lemma other_episode_spec (video : Video) (name : string) :
  other_episode video (guess_entry name) = false
  <-> (is_episode video = true -> same_episode video name).
Proof.
  unfold other_episode, same_episode.
  destruct (is_episode video); simpl.
  - destruct (guess_entry name !! "season") as [season |];
      destruct (guess_entry name !! "episode") as [episode |];
      try (split; [intros _ _ ? ? ? ?; discriminate | reflexivity]).
    rewrite orb_false_iff. split.
    + intros Hsame _ season' episode' Hs He.
      injection Hs as <-. injection He as <-. exact Hsame.
    + intros Hsame. apply Hsame; reflexivity.
  - split; [intros _ ?; discriminate | reflexivity].
Qed.

Lemma considered_spec (video : Video) (name : string) :
  NoDup SUBTITLE_EXTENSIONS ->
  considered video name = true <-> Candidate video name.
Proof.
  intros Hnodup. unfold considered, subtitle_name, Candidate, allowed_exts.
  rewrite !andb_true_iff, !negb_true_iff, endswith_any_spec, other_episode_spec.
  split.
  - intros [[Hdot [ext [Hext Hends]]] Hsame].
    apply (elem_of_remove_first _ _ _ Hnodup) in Hext as [Hext Htxt].
    split; [exact Hdot | split; [| exact Hsame]]. exists ext. auto.
  - intros [Hdot [[ext [Hext [Htxt Hends]]] Hsame]].
    split; [split; [exact Hdot |] | exact Hsame].
    exists ext. split; [| exact Hends].
    apply (elem_of_remove_first _ _ _ Hnodup). auto.
Qed.

(** The loop keeps the greatest score seen, and the first entry that has it. *)
Lemma best_entry_spec (video : Video) (names : list string) :
  (forall name, name ∈ names -> considered video name = true ->
      returns (guess_matches video (guess_entry name))) ->
  forall best_name best_score,
  exists best_name' best_score',
    best_entry video (get_scores video) names best_name best_score
    = Ok (best_name', best_score')
    /\ best_score <= best_score'
    /\ (forall name, name ∈ names -> considered video name = true ->
          entry_score video name <= best_score')
    /\ ((best_name' = best_name /\ best_score' = best_score)
        \/ exists name,
             best_name' = Some name /\ name ∈ names /\ considered video name = true
             /\ entry_score video name = best_score' /\ best_score < best_score').
Proof.
  induction names as [| name rest IH]; intros Hreturns best_name best_score.
  - exists best_name, best_score. simpl. repeat split; [lia | | auto].
    intros name Hin. apply elem_of_nil in Hin. contradiction.
  - assert (Hrest : forall n, n ∈ rest -> considered video n = true ->
                      returns (guess_matches video (guess_entry n))).
    { intros n Hn. apply Hreturns. right. exact Hn. }
    specialize (IH Hrest). simpl.
    destruct (considered video name) eqn:Hc.
    + destruct (Hreturns name (list_elem_of_here _ _) Hc) as [matches Hmatches].
      pose proof Hc as Hc'. unfold considered in Hc'.
      apply andb_true_iff in Hc' as [Hname Hep]. apply negb_true_iff in Hep.
      rewrite Hname, Hep, Hmatches. simpl.
      assert (Hscore : entry_score video name = match_score (get_scores video) matches).
      { unfold entry_score. rewrite Hmatches. reflexivity. }
      destruct (Z.ltb_spec best_score (match_score (get_scores video) matches)) as [Hlt | Hge].
      * destruct (IH (Some name) (match_score (get_scores video) matches))
          as [bn [bs [Hrun [Hle [Hmax Hwhich]]]]].
        exists bn, bs. split; [exact Hrun |]. split; [lia |]. split.
        -- intros n Hn Hcn. apply elem_of_cons in Hn as [-> | Hn]; [lia | auto].
        -- right. destruct Hwhich as [[-> ->] | [n [-> [Hn [Hcn [Hs Hb]]]]]].
           ++ exists name. repeat split; [left | exact Hc | exact Hscore | exact Hlt].
           ++ exists n. repeat split; [right; exact Hn | exact Hcn | exact Hs | lia].
      * destruct (IH best_name best_score) as [bn [bs [Hrun [Hle [Hmax Hwhich]]]]].
        exists bn, bs. split; [exact Hrun |]. split; [exact Hle |]. split.
        -- intros n Hn Hcn. apply elem_of_cons in Hn as [-> | Hn]; [lia | auto].
        -- destruct Hwhich as [Hsame | [n [-> [Hn [Hcn [Hs Hb]]]]]]; [left; exact Hsame |].
           right. exists n. repeat split; [right; exact Hn | exact Hcn | exact Hs | exact Hb].
    + destruct (IH best_name best_score) as [bn [bs [Hrun [Hle [Hmax Hwhich]]]]].
      exists bn, bs. split.
      * unfold considered in Hc. destruct (subtitle_name name); simpl in *; [| exact Hrun].
        apply negb_false_iff in Hc. rewrite Hc. exact Hrun.
      * split; [exact Hle |]. split.
        -- intros n Hn Hcn. apply elem_of_cons in Hn as [-> | Hn]; [congruence | auto].
        -- destruct Hwhich as [Hsame | [n [-> [Hn [Hcn [Hs Hb]]]]]]; [left; exact Hsame |].
           right. exists n. repeat split; [right; exact Hn | exact Hcn | exact Hs | exact Hb].
Qed.

Lemma from_archive_none (archive : Archive) (subtitle : Subtitle) :
  _extract_best_from_archive archive subtitle = Ok None ->
  from_archive archive subtitle = Raise ServiceUnavailable.
Proof. intros Hnone. unfold from_archive. rewrite Hnone. reflexivity. Qed.

(** C2: [_extract_best_from_archive] chooses among the entries whose
    basename does not start with a dot, whose name (in lower case) ends
    with a subtitle extension other than .txt and, for an Episode, whose
    guessed season and episode, if both present, equal the video's. It
    returns the bytes of an entry whose sum of per-match scores is the
    greatest among them and is positive; when there is no such entry, or
    the greatest sum is not positive, it returns None, and
    [download_subtitle], having opened the archive, raises
    [ServiceUnavailable], the function under the decorator and the method
    alike. The tuple of subtitle extensions has no repeated
    entry, and [guess_matches] returns on the entries chosen among. *)
Theorem C2_extract_best (archive : Archive) (subtitle : Subtitle) :
  NoDup SUBTITLE_EXTENSIONS ->
  (forall name, name ∈ namelist archive -> Candidate (video subtitle) name ->
      returns (guess_matches (video subtitle) (guess_entry name))) ->
  (exists name,
      name ∈ namelist archive /\ Candidate (video subtitle) name
      /\ 0 < entry_score (video subtitle) name
      /\ (forall other, other ∈ namelist archive -> Candidate (video subtitle) other ->
            entry_score (video subtitle) other <= entry_score (video subtitle) name)
      /\ _extract_best_from_archive archive subtitle = Result_map Some (read archive name))
  \/ ((forall name, name ∈ namelist archive -> Candidate (video subtitle) name ->
          entry_score (video subtitle) name <= 0)
      /\ _extract_best_from_archive archive subtitle = Ok None
      /\ (forall st s res,
            session (self st) = Some s ->
            server (trace st) (GET (page_link subtitle) []) = Some res ->
            http_error res = false ->
            Py.occurs_in AUTH_MARKER (text res) = false ->
            opened_as (res_content res) archive ->
            fst (download_subtitle_body subtitle st) = Raise ServiceUnavailable
            /\ fst (download_subtitle subtitle st) = Raise ServiceUnavailable)).
Proof.
  intros Hnodup Hreturns.
  assert (Hreturns' : forall name, name ∈ namelist archive ->
                        considered (video subtitle) name = true ->
                        returns (guess_matches (video subtitle) (guess_entry name))).
  { intros name Hin Hc. apply Hreturns; [exact Hin |].
    apply (considered_spec _ _ Hnodup). exact Hc. }
  destruct (best_entry_spec (video subtitle) (namelist archive) Hreturns' None (-1))
    as [bn [bs [Hrun [Hle [Hmax Hwhich]]]]].
  assert (Hnone : bn = None \/ bs <= 0 ->
            (forall name, name ∈ namelist archive -> Candidate (video subtitle) name ->
               entry_score (video subtitle) name <= 0)
            /\ _extract_best_from_archive archive subtitle = Ok None).
  { intros Hcase. split.
    - intros name Hin Hcand. apply (considered_spec _ _ Hnodup) in Hcand.
      specialize (Hmax name Hin Hcand).
      destruct Hcase as [-> | Hbs]; [| lia].
      destruct Hwhich as [[_ ->] | [n [Hn _]]]; [lia | discriminate].
    - unfold _extract_best_from_archive. rewrite Hrun.
      destruct Hcase as [-> | Hbs]; [reflexivity |].
      destruct bn; [| reflexivity].
      destruct (Z.leb_spec bs 0); [reflexivity | lia]. }
  destruct bn as [name |]; [destruct (Z.leb_spec bs 0) as [Hbs | Hbs] |].
  - right. destruct (Hnone (or_intror Hbs)) as [Hall Hextract].
    split; [exact Hall |]. split; [exact Hextract |].
    intros st s res Hs Hres Hok Hmarker Hopened.
    assert (Hbody : res_content res <> []).
    { intros Hempty. rewrite Hempty in Hopened.
      destruct Hopened as [[Hc _] | [Hc _]]; discriminate. }
    assert (Hraise : fst (download_subtitle_body subtitle st) = Raise ServiceUnavailable).
    { rewrite (download_subtitle_answered _ _ _ _ Hs Hres Hok Hmarker Hbody). simpl.
      destruct Hopened as [[-> ->] | [-> ->]]; apply from_archive_none; exact Hextract. }
    split; [exact Hraise |].
    rewrite download_subtitle_passes; [exact Hraise |].
    rewrite Hraise. intros e [= <-]. reflexivity.
  - left. destruct Hwhich as [[Hn _] | [n [Hn [Hin [Hc [Hs Hb]]]]]]; [discriminate |].
    injection Hn as ->. exists n.
    split; [exact Hin |]. split; [apply (considered_spec _ _ Hnodup); exact Hc |].
    split; [lia |]. split.
    + intros other Hother Hcand. rewrite Hs. apply Hmax; [exact Hother |].
      apply (considered_spec _ _ Hnodup). exact Hcand.
    + unfold _extract_best_from_archive. rewrite Hrun.
      destruct (Z.leb_spec bs 0); [lia |]. reflexivity.
  - right. destruct (Hnone (or_introl eq_refl)) as [Hall Hextract].
    split; [exact Hall |]. split; [exact Hextract |].
    intros st s res Hs Hres Hok Hmarker Hopened.
    assert (Hbody : res_content res <> []).
    { intros Hempty. rewrite Hempty in Hopened.
      destruct Hopened as [[Hc _] | [Hc _]]; discriminate. }
    assert (Hraise : fst (download_subtitle_body subtitle st) = Raise ServiceUnavailable).
    { rewrite (download_subtitle_answered _ _ _ _ Hs Hres Hok Hmarker Hbody). simpl.
      destruct Hopened as [[-> ->] | [-> ->]]; apply from_archive_none; exact Hextract. }
    split; [exact Hraise |].
    rewrite download_subtitle_passes; [exact Hraise |].
    rewrite Hraise. intros e [= <-]. reflexivity.
Qed.

(** ** The requests of a search *)













End Properties.

Lemma C9_language_fallback_witness :
  get_pipocas_language {| alpha3 := "por"; country := Some "BR" |} = Some "brasileiro"
  /\ get_pipocas_language {| alpha3 := "eng"; country := Some "AU" |} = Some "ingles"
  /\ @_search_language (Site.libraries EmptyString) (Site.show 1 2) Site.fra Site.logged_in
     = (Ok [], Site.logged_in).
Proof.
  pose proof (@C9_language_fallback (Site.libraries EmptyString)
                {| alpha3 := "por"; country := Some "BR" |}) as [Hbr _].
  pose proof (@C9_language_fallback (Site.libraries EmptyString)
                {| alpha3 := "eng"; country := Some "AU" |}) as [_ [Hau _]].
  pose proof (@C9_language_fallback (Site.libraries EmptyString) Site.fra) as [_ [_ Hfra]].
  split; [| split].
  - apply Hbr. vm_compute. reflexivity.
  - rewrite Hau by (vm_compute; reflexivity). vm_compute. reflexivity.
  - apply Hfra. vm_compute. reflexivity.
Defined.

Lemma C5_no_unauthenticated_provider_witness :
  @__init__ (Some "user") None = Raise ConfigurationError
  /\ @initialize (Site.libraries EmptyString)
       {| self := {| username := None; password := None; session := None |}; trace := [] |}
     = (Raise ConfigurationError,
        {| self := {| username := None; password := None; session := None |}; trace := [] |}).
Proof.
  pose proof (@C5_no_unauthenticated_provider (Site.libraries EmptyString) (Some "user") None
                {| self := {| username := None; password := None; session := None |};
                   trace := [] |}) as [Hinit [_ Hinitialize]].
  split.
  - apply Hinit. reflexivity.
  - apply Hinitialize. left. reflexivity.
Defined.

(** ** Runs on the small site *)

Lemma C1_container_by_magic_bytes_witness :
  fst (@download_subtitle_body Site.up (Site.subtitle "11" "Show.S01E02" (Site.show 1 2))
         Site.opened)
  = Ok (set_content (Site.subtitle "11" "Show.S01E02" (Site.show 1 2))
          (Py.b "1 00:00:01 Ola"))
  /\ @download_subtitle Site.up (Site.subtitle "11" "Show.S01E02" (Site.show 1 2)) Site.opened
     = @download_subtitle_body Site.up (Site.subtitle "11" "Show.S01E02" (Site.show 1 2))
         Site.opened.
Proof.
  destruct (@C1_container_by_magic_bytes Site.up
              (Site.subtitle "11" "Show.S01E02" (Site.show 1 2)) Site.opened
              {| created := 0; session_headers := ∅; closed := false |}
              (Site.page 200 "1 00:00:01 Ola"))
    as (Hbody & _ & Hraw).
  - reflexivity.
  - vm_compute. reflexivity.
  - vm_compute. reflexivity.
  - vm_compute. reflexivity.
  - vm_compute. discriminate.
  - split; [rewrite Hbody; vm_compute; reflexivity | apply Hraw; vm_compute; reflexivity].
Defined.

(** C1 as stated fails: a body that is not empty and starts with neither
    Rar! nor PK does not become the content when the text of the answer
    holds the marker of the login page; [download_subtitle] raises
    [AuthenticationError]. *)
Lemma C1_counterexample :
  @server Site.up (trace Site.opened)
     (GET (page_link (Site.subtitle "33" "Show.S01E02" (Site.show 1 2))) [])
  = Some (Site.page 200 "Cria uma conta")
  /\ res_content (Site.page 200 "Cria uma conta") <> []
  /\ container (res_content (Site.page 200 "Cria uma conta")) = RAW
  /\ fst (@download_subtitle Site.up (Site.subtitle "33" "Show.S01E02" (Site.show 1 2))
            Site.opened)
     = Raise AuthenticationError.
Proof.
  split; [| split; [| split]].
  - vm_compute. reflexivity.
  - vm_compute. discriminate.
  - vm_compute. reflexivity.
  - vm_compute. reflexivity.
Qed.




Lemma C8_sorted_by_score_and_hits_witness :
  exists subs st',
    @list_subtitles Site.up (Site.show 1 2) [Site.fra; Site.por] Site.opened = (Ok subs, st')
    /\ (sub_id <$> subs) = ["22"; "11"]
    /\ StronglySorted key_ge subs.
Proof.
  eexists. eexists. split; [vm_compute; reflexivity |]. split; [reflexivity |].
  eapply (@C8_sorted_by_score_and_hits Site.up (Site.show 1 2) [Site.fra; Site.por]
            Site.opened).
  vm_compute. reflexivity.
Defined.

Lemma C10_score_stars_witness :
  exists sub,
    @parse_details Site.up (Site.show 1 2) Site.por "details 1" = Ok (Some sub)
    /\ stars_formula 8 250 = Ok (user_score sub)
    /\ user_score sub = 5.
Proof.
  eexists. split; [vm_compute; reflexivity |].
  match goal with
  | |- stars_formula _ _ = Ok (user_score ?sub) /\ _ =>
      destruct (@C10_score_stars Site.up (Site.show 1 2) Site.por "details 1" sub)
        as [Hformula _]
  end.
  - vm_compute. reflexivity.
  - split; [| reflexivity].
    replace 8 with (@parsed_rating Site.up (@BeautifulSoup Site.up "details 1"))
      by (vm_compute; reflexivity).
    replace 250 with (@parsed_hits Site.up (@BeautifulSoup Site.up "details 1"))
      by (vm_compute; reflexivity).
    exact Hformula.
Defined.

Lemma C2_extract_best_witness :
  (exists name,
      name ∈ namelist Site.archive
      /\ @Candidate Site.up (Site.show 1 2) name
      /\ 0 < @entry_score Site.up (Site.show 1 2) name
      /\ (forall other, other ∈ namelist Site.archive ->
            @Candidate Site.up (Site.show 1 2) other ->
            @entry_score Site.up (Site.show 1 2) other
            <= @entry_score Site.up (Site.show 1 2) name)
      /\ @_extract_best_from_archive Site.up Site.archive
           (Site.subtitle "22" "Show.S01E02" (Site.show 1 2))
         = Result_map Some (read Site.archive name))
  /\ @_extract_best_from_archive Site.up Site.archive
       (Site.subtitle "22" "Show.S01E02" (Site.show 1 2))
     = Ok (Some (Py.b "sub/Show.S01E02.HDTV.SRT")).
Proof.
  split; [| vm_compute; reflexivity].
  destruct (@C2_extract_best Site.up Site.archive
              (Site.subtitle "22" "Show.S01E02" (Site.show 1 2)))
    as [Hbest | [_ [Hnone _]]].
  - apply (bool_decide_unpack _). vm_compute. reflexivity.
  - intros name _ _. eexists. reflexivity.
  - exact Hbest.
  - exfalso. revert Hnone. vm_compute. discriminate.
Defined.



(** * Further properties of the module *)

Section FurtherProperties.

Context {L : Libraries}.

(** ** Identifiers and languages *)

(** The [id] of a subtitle tells subtitles of the site apart exactly as
    their subtitle ids do: two subtitles have the same [id] if and only if
    they have the same [sub_id]. *)
Theorem Subtitle_id_injective (a b : Subtitle) :
  Subtitle_id a = Subtitle_id b <-> sub_id a = sub_id b.
Proof.
  unfold Subtitle_id, provider_name. simpl. split.
  - intros H. injection H as H. exact H.
  - intros ->. reflexivity.
Qed.

Lemma language_map_Some (key : string * option string) (site_lang : string) :
  PIPOCAS_LANGUAGE_MAP !! key = Some site_lang <-> (key, site_lang) ∈ LANGUAGE_ROWS.
Proof.
  symmetry. apply (elem_of_list_to_map (M := gmap (string * option string))).
  apply (bool_decide_unpack _). vm_compute. reflexivity.
Qed.

Lemma language_map_None (key : string * option string) :
  PIPOCAS_LANGUAGE_MAP !! key = None <-> key ∉ LANGUAGE_ROWS.*1.
Proof.
  symmetry. apply (not_elem_of_list_to_map (M := gmap (string * option string))).
Qed.

Lemma site_language_cases (language : Language) :
  (get_pipocas_language language = Some "brasileiro"
   <-> alpha3 language = "por" /\ country language = Some "BR")
  /\ (get_pipocas_language language = Some "portugues"
      <-> alpha3 language = "por" /\ country language <> Some "BR")
  /\ (get_pipocas_language language = Some "ingles" <-> alpha3 language = "eng")
  /\ (get_pipocas_language language = Some "espanhol" <-> alpha3 language = "spa")
  /\ (get_pipocas_language language = None
      <-> alpha3 language <> "por" /\ alpha3 language <> "eng"
          /\ alpha3 language <> "spa").
Proof.
  destruct language as [a c]. unfold get_pipocas_language. simpl alpha3. simpl country.
  destruct (PIPOCAS_LANGUAGE_MAP !! (a, c)) as [s |] eqn:Hkey.
  - apply language_map_Some in Hkey.
    rows Hkey; repeat split; intros; destruct_and?; simplify_eq; congruence.
  - apply language_map_None in Hkey.
    destruct (PIPOCAS_LANGUAGE_MAP !! (a, None)) as [s |] eqn:Hbase.
    + apply language_map_Some in Hbase.
      rows Hbase; repeat split; intros; destruct_and?; simplify_eq; try congruence.
      all: try (intros ->; apply Hkey; simpl; in_list).
      all: try (exfalso; apply Hkey; simpl; in_list).
    + apply language_map_None in Hbase.
      repeat split; intros; destruct_and?; simplify_eq; try congruence.
      all: try (intros ->; apply Hbase; simpl; in_list).
      all: exfalso; apply Hbase; simpl; in_list.
Qed.

(** The site language of a language depends on its alpha3 code and, for
    Portuguese only, on whether the country is BR: por with BR is
    brasileiro, por with any other country or none is portugues, eng
    with any country is ingles, spa with any country is espanhol, and
    every other alpha3 code has no site language. Every language the
    provider advertises has one. *)
Theorem site_language_by_alpha3 (language : Language) :
  (get_pipocas_language language = Some "brasileiro"
   <-> alpha3 language = "por" /\ country language = Some "BR")
  /\ (get_pipocas_language language = Some "portugues"
      <-> alpha3 language = "por" /\ country language <> Some "BR")
  /\ (get_pipocas_language language = Some "ingles" <-> alpha3 language = "eng")
  /\ (get_pipocas_language language = Some "espanhol" <-> alpha3 language = "spa")
  /\ (get_pipocas_language language = None
      <-> alpha3 language <> "por" /\ alpha3 language <> "eng"
          /\ alpha3 language <> "spa")
  /\ Forall (fun advertised => Py.truthy_str (get_pipocas_language advertised) = true)
       languages.
Proof.
  destruct (site_language_cases language) as (Hbr & Hpt & Heng & Hspa & Hnone).
  split; [exact Hbr |]. split; [exact Hpt |]. split; [exact Heng |].
  split; [exact Hspa |]. split; [exact Hnone |].
  unfold languages. repeat constructor.
Qed.

(** ** The search query *)

Lemma append_nonempty (a b : string) : a <> EmptyString -> a +:+ b <> EmptyString.
Proof. destruct a; [congruence | discriminate]. Qed.

Lemma truthy_str_default (o : option string) :
  Py.truthy_str o = true -> default EmptyString o <> EmptyString.
Proof. destruct o as [[| c r] |]; simpl; congruence. Qed.

Lemma nonempty_false (s : string) : nonempty s = false <-> s = EmptyString.
Proof. unfold nonempty. destruct s; simpl; split; congruence. Qed.

(** The search query is empty if and only if the video has no series name
    (an Episode) or no title (another video) and its file name, if any,
    has an empty root; a video with an empty query is not searched for: no
    request, no delay, an empty list. An Episode whose season or episode
    is 0 or missing is searched for by its series name alone. *)
Theorem search_query_edge_cases (video : Video) :
  (_build_search_query video = EmptyString
   <-> Py.truthy_str (if is_episode video then video_series video else video_title video)
       = false
       /\ (Py.truthy_str (video_name video) = true ->
           Py.splitext_root (Py.basename (default EmptyString (video_name video)))
           = EmptyString))
  /\ (_build_search_query video = EmptyString ->
      forall language st, _search_language video language st = (Ok [], st))
  /\ (is_episode video = true ->
      Py.truthy_str (video_series video) = true ->
      Py.truthy_int (video_season video) = false
      \/ Py.truthy_int (video_episode video) = false ->
      _build_search_query video = default EmptyString (video_series video)).
Proof.
  split; [| split].
  - unfold _build_search_query.
    destruct (is_episode video).
    + destruct (Py.truthy_str (video_series video)) eqn:Hseries.
      * pose proof (truthy_str_default _ Hseries) as Hne. cbn [andb].
        destruct (Py.truthy_int (video_season video) && Py.truthy_int (video_episode video));
          simpl; split; try (intros [? _]; discriminate); intros Hq; exfalso.
        -- revert Hq. apply append_nonempty. exact Hne.
        -- contradiction.
      * simpl. destruct (Py.truthy_str (video_name video)); split.
        -- intros Hq. split; [reflexivity | intros _; exact Hq].
        -- intros [_ Hq]. apply Hq. reflexivity.
        -- intros _. split; [reflexivity | discriminate].
        -- reflexivity.
    + destruct (Py.truthy_str (video_title video)) eqn:Htitle.
      * pose proof (truthy_str_default _ Htitle) as Hne.
        split; [intros Hq; contradiction | intros [? _]; discriminate].
      * destruct (Py.truthy_str (video_name video)); split.
        -- intros Hq. split; [reflexivity | intros _; exact Hq].
        -- intros [_ Hq]. apply Hq. reflexivity.
        -- intros _. split; [reflexivity | discriminate].
        -- reflexivity.
  - intros Hq language st. unfold _search_language.
    destruct (negb (Py.truthy_str (get_pipocas_language language))); [reflexivity |].
    rewrite Hq. reflexivity.
  - intros Hep Hseries Hzero. unfold _build_search_query. rewrite Hep, Hseries.
    destruct Hzero as [-> | ->]; [reflexivity | rewrite andb_false_r; reflexivity].
Qed.

(** ** The star rating on the ratings of the site *)

Lemma Z_range_elem (lo z : Z) (count : nat) :
  lo <= z < lo + Z.of_nat count -> In z (Z_range lo count).
Proof.
  intros Hz. unfold Z_range. apply list_elem_of_In, list_elem_of_fmap.
  exists (Z.to_nat (z - lo)). split; [lia |].
  apply elem_of_seq. lia.
Qed.

Lemma stars_agree_checked :
  forallb (fun rating_val => forallb (stars_agree rating_val) (Z_range 0 1001))
    (Z_range 0 11) = true.
Proof. vm_compute. reflexivity. Qed.

(** For a rating from 0 to 10 and from 0 to 1000 hits, the float
    computation of the stars gives the integer nearest to the exact value
    of [(rating_val + hit_factor) / 2], ties to even, and the stars are
    between 0 and 8; a rating of 10 with 500 hits has 8 stars. *)
Theorem stars_exact_on_ratings (rating_val hits : Z) :
  0 <= rating_val <= 10 ->
  0 <= hits <= 1000 ->
  Stars.score_stars rating_val hits = Ok (exact_stars rating_val hits)
  /\ 0 <= exact_stars rating_val hits <= 8
  /\ Stars.score_stars 10 500 = Ok 8.
Proof.
  intros Hr Hh.
  pose proof stars_agree_checked as Hall.
  rewrite forallb_forall in Hall.
  specialize (Hall rating_val (Z_range_elem 0 rating_val 11 ltac:(lia))).
  rewrite forallb_forall in Hall.
  specialize (Hall hits (Z_range_elem 0 hits 1001 ltac:(lia))).
  unfold stars_agree in Hall.
  destruct (Stars.score_stars rating_val hits) as [stars | e]; [| discriminate].
  apply andb_true_iff in Hall as [Hall Hhi]. apply andb_true_iff in Hall as [Heq Hlo].
  apply Z.eqb_eq in Heq. subst stars.
  split; [reflexivity |]. split; [lia |]. vm_compute. reflexivity.
Qed.

(** ** The CSRF token *)

Lemma append_cons (c : ascii) (a b : string) : String c a +:+ b = String c (a +:+ b).
Proof. reflexivity. Qed.

Lemma append_nil (b : string) : EmptyString +:+ b = b.
Proof. reflexivity. Qed.

Lemma lower_app (a b : string) : Py.lower (a +:+ b) = Py.lower a +:+ Py.lower b.
Proof.
  induction a as [| c a IH]; [reflexivity |].
  rewrite append_cons. simpl. rewrite IH. reflexivity.
Qed.

Lemma lower_length (a : string) : String.length (Py.lower a) = String.length a.
Proof. induction a as [| c a IH]; simpl; [reflexivity | rewrite IH; reflexivity]. Qed.

Lemma startswith_nil (s : string) : Py.startswith EmptyString s = true.
Proof. destruct s; reflexivity. Qed.

Lemma startswith_app (a b : string) : Py.startswith a (a +:+ b) = true.
Proof.
  induction a as [| c a IH]; [apply startswith_nil |].
  rewrite append_cons. unfold Py.startswith in *. simpl.
  destruct (ascii_dec c c); [exact IH | contradiction].
Qed.

Lemma startswith_split (a s : string) :
  Py.startswith a s = true -> exists rest, s = a +:+ rest.
Proof.
  unfold Py.startswith. revert s. induction a as [| c a IH]; intros s H.
  - exists s. reflexivity.
  - destruct s as [| d s]; [discriminate |]. simpl in H.
    destruct (ascii_dec c d) as [-> |]; [| discriminate].
    destruct (IH s H) as [rest ->]. exists rest. reflexivity.
Qed.

Lemma drop_app_length (a b : string) : Re.drop (String.length a) (a +:+ b) = b.
Proof.
  induction a as [| c a IH]; [destruct b; reflexivity |].
  rewrite append_cons. simpl. exact IH.
Qed.

Lemma lower_split (low s : string) :
  Py.lower s = low -> forall a b, low = a +:+ b ->
  exists sa sb, s = sa +:+ sb /\ Py.lower sa = a /\ Py.lower sb = b.
Proof.
  intros <- a. revert s. induction a as [| c a IH]; intros s b H.
  - exists EmptyString, s. auto.
  - destruct s as [| d s]; [discriminate |]. rewrite append_cons in H. simpl in H.
    injection H as Hc H.
    destruct (IH s b H) as (sa & sb & Hs & Ha & Hb).
    exists (String d sa), sb. rewrite append_cons, Hs. simpl. rewrite Ha, Hc. auto.
Qed.

Lemma literal_ci_split (lit s : string) :
  Re.literal_ci lit s = true ->
  exists opening rest,
    s = opening +:+ rest /\ Py.lower opening = Py.lower lit
    /\ Re.drop (String.length lit) s = rest.
Proof.
  unfold Re.literal_ci. intros H.
  destruct (startswith_split _ _ H) as [low Hlow].
  destruct (lower_split _ s eq_refl _ _ Hlow) as (sa & sb & -> & Ha & Hb).
  exists sa, sb. split; [reflexivity |]. split; [exact Ha |].
  rewrite <- (lower_length lit), <- Ha, lower_length. apply drop_app_length.
Qed.

Lemma search_found {A} (match_at : string -> option A) (s : string) (m : A) :
  Re.search match_at s = Some m ->
  exists pre rest, s = pre +:+ rest /\ match_at rest = Some m.
Proof.
  induction s as [| c s IH]; simpl.
  - destruct (match_at EmptyString) eqn:H; [| discriminate].
    intros [= <-]. exists EmptyString, EmptyString. auto.
  - destruct (match_at (String c s)) eqn:H.
    + intros [= <-]. exists EmptyString, (String c s). auto.
    + intros Hs. destruct (IH Hs) as (pre & rest & Hpre & Hm).
      exists (String c pre), rest. rewrite append_cons, Hpre. auto.
Qed.


Lemma append_assoc_one (acc : string) (c : ascii) (t : string) :
  (acc +:+ String c EmptyString) +:+ t = acc +:+ String c t.
Proof.
  induction acc as [| a acc IHa]; [reflexivity |].
  rewrite !append_cons, IHa. reflexivity.
Qed.

Lemma lazy_group_found (close s : string) :
  forall acc g,
    Re.lazy_group close acc s = Some g ->
    exists t tail,
      g = acc +:+ t /\ t <> EmptyString /\ one_line t = true
      /\ s = t +:+ tail /\ Re.literal_ci close tail = true.
Proof.
  induction s as [| c s IH]; intros acc g; simpl; [discriminate |].
  destruct (Ascii.eqb c Py.newline) eqn:Hnl; [discriminate |].
  destruct (Re.literal_ci close s) eqn:Hclose.
  - intros [= <-]. exists (String c EmptyString), s. simpl. rewrite Hnl.
    repeat split; [discriminate | exact Hclose].
  - intros Hg. destruct (IH _ _ Hg) as (t & tail & Hgt & Hne & Hline & Hs & Htail).
    exists (String c t), tail. simpl. rewrite Hnl, Hline, Hs.
    repeat split; [| discriminate | exact Htail].
    rewrite Hgt. apply append_assoc_one.
Qed.

Lemma plain_one_line (t : string) : plain_token t = true -> one_line t = true.
Proof.
  induction t as [| c t IH]; simpl; [reflexivity |].
  intros H. apply andb_true_iff in H as [H Ht]. apply andb_true_iff in H as [Hn _].
  rewrite Hn, (IH Ht). reflexivity.
Qed.

Lemma prefix_cons (a b : ascii) (p s : string) :
  String.prefix (String a p) (String b s)
  = if ascii_dec a b then String.prefix p s else false.
Proof. reflexivity. Qed.

Lemma lower_char_dquote (c : ascii) :
  Ascii.eqb c Py.dquote = false -> Ascii.eqb (Py.lower_char c) Py.dquote = false.
Proof.
  destruct c as [[] [] [] [] [] [] [] []]; intros H; try discriminate H; reflexivity.
Qed.

Lemma close_not_at_plain (c : ascii) (rest : string) :
  Ascii.eqb c Py.dquote = false ->
  Re.literal_ci Re.TOKEN_CLOSE (String c rest) = false.
Proof.
  intros Hc. unfold Re.literal_ci, Py.startswith.
  change (Py.lower Re.TOKEN_CLOSE) with (String Py.dquote ">").
  change (Py.lower (String c rest)) with (String (Py.lower_char c) (Py.lower rest)).
  rewrite prefix_cons.
  destruct (ascii_dec Py.dquote (Py.lower_char c)) as [Heq |]; [| reflexivity].
  apply lower_char_dquote in Hc. rewrite <- Heq in Hc. discriminate.
Qed.

Lemma lazy_group_plain (t tail : string) :
  forall acc,
    t <> EmptyString -> plain_token t = true ->
    Re.literal_ci Re.TOKEN_CLOSE tail = true ->
    Re.lazy_group Re.TOKEN_CLOSE acc (t +:+ tail) = Some (acc +:+ t).
Proof.
  induction t as [| c t IH]; intros acc Hne Hplain Htail; [congruence |].
  simpl in Hplain. apply andb_true_iff in Hplain as [Hc Hplain].
  apply andb_true_iff in Hc as [Hnl Hdq].
  apply negb_true_iff in Hnl. apply negb_true_iff in Hdq.
  rewrite append_cons. cbn [Re.lazy_group]. rewrite Hnl.
  destruct t as [| d t].
  - rewrite append_nil, Htail. reflexivity.
  - assert (Hd : Ascii.eqb d Py.dquote = false).
    { simpl in Hplain. apply andb_true_iff in Hplain as [Hd _].
      apply andb_true_iff in Hd as [_ Hd]. apply negb_true_iff in Hd. exact Hd. }
    rewrite append_cons, (close_not_at_plain d _ Hd), <- append_cons.
    rewrite (IH (acc +:+ String c EmptyString)); [| discriminate | exact Hplain | exact Htail].
    f_equal. apply append_assoc_one.
Qed.

Lemma search_skip {A} (match_at : string -> option A) (pre rest : string) :
  (forall pre1 pre2, pre = pre1 +:+ pre2 -> pre2 <> EmptyString ->
     match_at (pre2 +:+ rest) = None) ->
  Re.search match_at (pre +:+ rest) = Re.search match_at rest.
Proof.
  induction pre as [| c pre IH]; intros Hnone; [reflexivity |].
  rewrite append_cons. cbn [Re.search]. rewrite <- append_cons.
  rewrite (Hnone EmptyString (String c pre) eq_refl ltac:(discriminate)).
  apply IH. intros pre1 pre2 -> Hne.
  apply (Hnone (String c pre1) pre2 eq_refl Hne).
Qed.

(** A login page that holds the csrf-token meta tag, in any case of
    letters, with a token that is not empty and has no newline and no
    double quote, gives this token back, whatever stands after the tag,
    when the opening of the tag does not start earlier in the page. *)
Theorem token_round_trip (pre opening t post : string) :
  Py.lower opening = Py.lower Re.TOKEN_OPEN ->
  t <> EmptyString ->
  plain_token t = true ->
  no_opening_in pre (opening +:+ t +:+ Re.TOKEN_CLOSE +:+ post) ->
  Re.TOKEN_RE_search (pre +:+ opening +:+ t +:+ Re.TOKEN_CLOSE +:+ post) = Some t.
Proof.
  intros Hopen Hne Hplain Hpre. unfold Re.TOKEN_RE_search.
  rewrite search_skip.
  - assert (Hat : Re.TOKEN_RE_match_at (opening +:+ t +:+ Re.TOKEN_CLOSE +:+ post) = Some t).
    { unfold Re.TOKEN_RE_match_at.
      assert (Hlit : Re.literal_ci Re.TOKEN_OPEN (opening +:+ t +:+ Re.TOKEN_CLOSE +:+ post)
                     = true).
      { unfold Re.literal_ci. rewrite lower_app, Hopen. apply startswith_app. }
      rewrite Hlit.
      rewrite <- (lower_length Re.TOKEN_OPEN), <- Hopen, lower_length, drop_app_length.
      rewrite (lazy_group_plain t _ EmptyString Hne Hplain); [reflexivity |].
      unfold Re.literal_ci. rewrite lower_app. apply startswith_app. }
    revert Hat. generalize (opening +:+ t +:+ Re.TOKEN_CLOSE +:+ post).
    intros rest Hat. destruct rest; cbn [Re.search]; rewrite Hat; reflexivity.
  - intros pre1 pre2 Hsplit Hne2. unfold Re.TOKEN_RE_match_at.
    rewrite (Hpre pre1 pre2 Hsplit Hne2). reflexivity.
Qed.

(** A token that the csrf-token pattern finds is not empty, has no
    newline, and stands in the page between the opening of the meta tag,
    in some case of letters, and the closing quote and bracket. *)
Theorem token_found_sound (page t : string) :
  Re.TOKEN_RE_search page = Some t ->
  t <> EmptyString /\ one_line t = true
  /\ exists pre opening post,
       page = pre +:+ opening +:+ t +:+ post
       /\ Py.lower opening = Py.lower Re.TOKEN_OPEN
       /\ Re.literal_ci Re.TOKEN_CLOSE post = true.
Proof.
  unfold Re.TOKEN_RE_search. intros Hs.
  destruct (search_found _ _ _ Hs) as (pre & rest & Hpage & Hat).
  unfold Re.TOKEN_RE_match_at in Hat.
  destruct (Re.literal_ci Re.TOKEN_OPEN rest) eqn:Hlit; [| discriminate].
  destruct (literal_ci_split _ _ Hlit) as (opening & rest' & Hrest & Hopen & Hdrop).
  rewrite Hdrop in Hat.
  destruct (lazy_group_found _ _ _ _ Hat) as (t' & tail & Ht & Hne & Hline & Htail & Hclose).
  rewrite append_nil in Ht. subst t'.
  split; [exact Hne |]. split; [exact Hline |].
  exists pre, opening, tail. rewrite Hpage, Hrest, Htail. auto.
Qed.

(** ** Errors of a search *)



(** ** A provider that was not initialized *)

Lemma _search_language_no_session (video : Video) (language : Language) (st : State) :
  session (self st) = None ->
  (_search_language video language st = (Ok [], st)
   \/ exists st1,
        _search_language video language st = (Raise AttributeError, st1)
        /\ self st1 = self st /\ requests (trace st1) = requests (trace st)).
Proof.
  intros Hnone. unfold _search_language.
  destruct (negb (Py.truthy_str (get_pipocas_language language))); [left; reflexivity |].
  destruct (negb (nonempty (_build_search_query video))); [left; reflexivity |].
  right. unfold bind, emit, send. simpl. rewrite Hnone.
  eexists. split; [reflexivity |]. split; [reflexivity |].
  simpl. unfold requests. rewrite omap_app. simpl. apply app_nil_r.
Qed.

Lemma search_languages_no_session (video : Video) (languages : list Language) :
  forall st,
    session (self st) = None ->
    fst (search_languages video languages [] st) = Ok []
    /\ self (snd (search_languages video languages [] st)) = self st
    /\ requests (trace (snd (search_languages video languages [] st)))
       = requests (trace st).
Proof.
  induction languages as [| language rest IH]; intros st Hnone; [auto |].
  cbn [search_languages]. unfold bind, try_except, ret.
  destruct (_search_language_no_session video language st Hnone)
    as [Hret | (st1 & Hraise & Hself & Hreq)].
  - rewrite Hret. simpl. apply IH. exact Hnone.
  - rewrite Hraise. simpl.
    destruct (IH st1) as (Hfst & Hself' & Hreq'); [rewrite Hself; exact Hnone |].
    split; [exact Hfst |]. split; congruence.
Qed.

(** On a provider that has no session (it was not initialized), neither
    method sends a request: [list_subtitles] returns the empty list,
    without an exception, and leaves the provider as it was, and
    [download_subtitle], the function under the decorator and the method
    alike, raises the [AttributeError] of the missing session, leaving
    the state as it was. *)
Theorem no_session_no_request (st : State) :
  session (self st) = None ->
  (forall video languages,
      fst (list_subtitles video languages st) = Ok []
      /\ self (snd (list_subtitles video languages st)) = self st
      /\ requests (trace (snd (list_subtitles video languages st)))
         = requests (trace st))
  /\ (forall subtitle,
        download_subtitle_body subtitle st = (Raise AttributeError, st)
        /\ download_subtitle subtitle st = (Raise AttributeError, st)).
Proof.
  intros Hnone. split.
  - intros video languages.
    destruct (search_languages_no_session video languages st Hnone) as (Hfst & Hself & Hreq).
    unfold list_subtitles, bind, ret.
    destruct (search_languages video languages [] st) as [[all | e] st1]; simpl in *;
      [| discriminate].
    injection Hfst as ->. auto.
  - intros subtitle.
    assert (Hbody : download_subtitle_body subtitle st = (Raise AttributeError, st)).
    { unfold download_subtitle_body, bind, send. rewrite Hnone. reflexivity. }
    split; [exact Hbody |].
    rewrite download_subtitle_passes; [exact Hbody |].
    rewrite Hbody. intros e [= <-]. reflexivity.
Qed.

(** ** What a download gives *)

Lemma from_archive_Ok (archive : Archive) (subtitle sub' : Subtitle) :
  from_archive archive subtitle = Ok sub' ->
  exists data, data <> [] /\ sub' = normalize (set_content subtitle (fix_line_ending data)).
Proof.
  unfold from_archive.
  destruct (_extract_best_from_archive archive subtitle) as [[[| c rest] |] | e];
    try discriminate.
  intros [= <-]. exists (c :: rest). split; [discriminate | reflexivity].
Qed.

Lemma from_body_Ok (data : list byte) (subtitle sub' : Subtitle) :
  from_body data subtitle = Ok sub' ->
  exists data', data' <> []
    /\ sub' = normalize (set_content subtitle (fix_line_ending data')).
Proof.
  unfold from_body. destruct data as [| c data]; [discriminate |].
  destruct (Py.bytes_startswith (Py.b "Rar!") (take 4 (c :: data))).
  - destruct (RarFile (c :: data)); [apply from_archive_Ok | discriminate].
  - destruct (Py.bytes_startswith (Py.b "PK") (take 4 (c :: data))).
    + destruct (ZipFile (c :: data)); [apply from_archive_Ok | discriminate].
    + intros [= <-]. exists (c :: data). split; [discriminate | reflexivity].
Qed.

(** With a session, the function [download_subtitle] under the decorator
    sends one request, the GET of the page link of the subtitle, whatever
    comes of it. A request that fails
    raises [RequestException]; an answer with an error status raises
    [HTTPError], whatever its text; otherwise a text that holds the
    marker of the login page raises [AuthenticationError], whatever the
    body; otherwise an empty body raises [ServiceUnavailable]. A subtitle
    that is returned is the argument with a new content, made by
    [fix_line_ending] and [normalize] from bytes that are not empty. *)
Theorem download_subtitle_outcomes (subtitle : Subtitle) (st : State) (s : Session) :
  session (self st) = Some s ->
  snd (download_subtitle_body subtitle st)
  = {| self := self st; trace := trace st ++ [Sent (GET (page_link subtitle) [])] |}
  /\ (server (trace st) (GET (page_link subtitle) []) = None ->
      fst (download_subtitle_body subtitle st) = Raise RequestException)
  /\ (forall res,
        server (trace st) (GET (page_link subtitle) []) = Some res ->
        (http_error res = true -> fst (download_subtitle_body subtitle st) = Raise HTTPError)
        /\ (http_error res = false -> Py.occurs_in AUTH_MARKER (text res) = true ->
            fst (download_subtitle_body subtitle st) = Raise AuthenticationError)
        /\ (http_error res = false -> Py.occurs_in AUTH_MARKER (text res) = false ->
            res_content res = [] ->
            fst (download_subtitle_body subtitle st) = Raise ServiceUnavailable))
  /\ (forall sub',
        fst (download_subtitle_body subtitle st) = Ok sub' ->
        exists data, data <> []
          /\ sub' = normalize (set_content subtitle (fix_line_ending data))).
Proof.
  intros Hs. unfold download_subtitle_body, bind, send. rewrite Hs.
  destruct (server (trace st) (GET (page_link subtitle) [])) as [res |]; simpl.
  - unfold raise_for_status.
    destruct (http_error res) eqn:Herr; simpl.
    + split; [reflexivity |]. split; [discriminate |]. split; [| discriminate].
      intros res' [= <-]. split; [reflexivity |]. split; congruence.
    + destruct (Py.occurs_in AUTH_MARKER (text res)) eqn:Hmarker; simpl.
      * split; [reflexivity |]. split; [discriminate |]. split; [| discriminate].
        intros res' [= <-]. split; [congruence |]. split; [reflexivity | congruence].
      * split; [reflexivity |]. split; [discriminate |]. split.
        -- intros res' [= <-]. split; [congruence |]. split; [congruence |].
           intros _ _ ->. reflexivity.
        -- intros sub'. apply from_body_Ok.
  - split; [reflexivity |]. split; [reflexivity |]. split; discriminate.
Qed.

(** ** What is found *)

Lemma str_or_nonempty (o : option string) (d : string) :
  d <> EmptyString -> Py.str_or o d <> EmptyString.
Proof.
  intros Hd. unfold Py.str_or.
  destruct o as [[| c r] |]; simpl; [exact Hd | discriminate | exact Hd].
Qed.

Lemma parse_details_found (video0 : Video) (language0 : Language) (page : string)
    (sub : Subtitle) :
  parse_details video0 language0 page = Ok (Some sub) ->
  video sub = video0 /\ language sub = language0
  /\ sub_id sub <> EmptyString /\ uploader sub <> EmptyString
  /\ page_link sub = DOWNLOAD_URL (sub_id sub) /\ content sub = None.
Proof.
  unfold parse_details.
  destruct (first_download_id (find_all (BeautifulSoup page) "a" [HasAttr "href"]))
    as [[| c id] |]; simpl; try discriminate.
  destruct (Stars.score_stars _ _) as [stars | e]; [| discriminate].
  intros [= <-]. simpl.
  repeat split; [discriminate | apply str_or_nonempty; discriminate].
Qed.

Lemma _parse_details_page_found (video0 : Video) (url : string) (language0 : Language)
    (st st' : State) (sub : Subtitle) :
  _parse_details_page video0 url language0 st = (Ok (Some sub), st') ->
  exists page, parse_details video0 language0 page = Ok (Some sub).
Proof.
  unfold _parse_details_page, bind, send, lift.
  destruct (session (self st)); [| discriminate].
  destruct (server (trace st) (GET url [])) as [res |]; [| discriminate].
  unfold raise_for_status. destruct (http_error res); [discriminate |]. simpl.
  intros [= H _]. exists (text res). exact H.
Qed.

Lemma search_results_Forall (P : Subtitle -> Prop) (video0 : Video) (language0 : Language)
    (anchors : list Tag) :
  (forall page sub, parse_details video0 language0 page = Ok (Some sub) -> P sub) ->
  forall results st subs st',
    Forall P results ->
    search_results video0 language0 anchors results st = (Ok subs, st') ->
    Forall P subs.
Proof.
  intros Hparse.
  induction anchors as [| a rest IH]; intros results st subs st' Hres; cbn [search_results].
  - intros [= <- _]. exact Hres.
  - destruct (negb (Py.occurs_in INFO_PATH (tag_attr a "href"))); [apply IH; exact Hres |].
    unfold bind.
    destruct (_parse_details_page video0 (details_href (tag_attr a "href")) language0 st)
      as [[[sub |] | e] st1] eqn:Hpage; [| apply IH; exact Hres | discriminate].
    apply IH. apply Forall_app. split; [exact Hres |].
    constructor; [| constructor].
    destruct (_parse_details_page_found _ _ _ _ _ _ Hpage) as [page Hsub].
    exact (Hparse page sub Hsub).
Qed.

Lemma _search_language_Forall (video0 : Video) (language0 : Language)
    (st st' : State) (subs : list Subtitle) :
  _search_language video0 language0 st = (Ok subs, st') ->
  Forall (found_for video0 [language0]) subs.
Proof.
  unfold _search_language.
  destruct (Py.truthy_str (get_pipocas_language language0)) eqn:Hlang; simpl;
    [| intros [= <- _]; constructor].
  destruct (negb (nonempty (_build_search_query video0))); [intros [= <- _]; constructor |].
  unfold bind, emit. simpl.
  destruct (send _ _) as [[res | e] st1]; [| discriminate].
  destruct (raise_for_status res st1) as [[[] | e] st2]; [| discriminate].
  destruct (Py.occurs_in AUTH_MARKER (text res)); [discriminate |].
  apply search_results_Forall; [| constructor].
  intros page sub Hsub.
  destruct (parse_details_found _ _ _ _ Hsub) as (Hv & Hl & Hid & Hup & Hlink & Hcontent).
  unfold found_for. rewrite Hl.
  repeat split; try assumption. apply list_elem_of_here.
Qed.

Lemma found_for_more (video0 : Video) (langs langs' : list Language) (sub : Subtitle) :
  langs ⊆ langs' -> found_for video0 langs sub -> found_for video0 langs' sub.
Proof.
  intros Hsub (Hv & Hl & Hrest). split; [exact Hv |]. split; [apply Hsub, Hl | exact Hrest].
Qed.

Lemma search_languages_Forall (video0 : Video) (all : list Language)
    (languages : list Language) :
  languages ⊆ all ->
  forall all_subs st subs st',
    Forall (found_for video0 all) all_subs ->
    search_languages video0 languages all_subs st = (Ok subs, st') ->
    Forall (found_for video0 all) subs.
Proof.
  induction languages as [| language rest IH]; intros Hsub all_subs st subs st' Hall;
    cbn [search_languages].
  - intros [= <- _]. exact Hall.
  - assert (Hrest : rest ⊆ all).
    { intros x Hx. apply Hsub. right. exact Hx. }
    unfold bind, try_except, ret.
    destruct (_search_language video0 language st) as [[found | e] st1] eqn:Hsearch; simpl.
    + apply (IH Hrest). apply Forall_app. split; [exact Hall |].
      eapply Forall_impl; [exact (_search_language_Forall _ _ _ _ _ Hsearch) |].
      intros sub. apply found_for_more.
      intros x Hx. apply list_elem_of_singleton in Hx as ->. apply Hsub. left.
    + destruct (reraised e); simpl; [discriminate |]. apply (IH Hrest). exact Hall.
Qed.

(** Every subtitle that [list_subtitles] returns is of the video asked
    for and of one of the languages asked for, a language the site has a
    name for; its subtitle id and its uploader are not empty, its page
    link is the download address of its id, and it has no content yet.
    With a session, the function [download_subtitle] under the decorator
    sends one request for such a subtitle, the GET of the download address
    of its id. *)
Theorem list_subtitles_found (video0 : Video) (languages : list Language)
    (st st' : State) (subs : list Subtitle) :
  list_subtitles video0 languages st = (Ok subs, st') ->
  Forall (found_for video0 languages) subs
  /\ (forall sub st0 s,
        sub ∈ subs -> session (self st0) = Some s ->
        requests (trace (snd (download_subtitle_body sub st0)))
        = requests (trace st0) ++ [GET (DOWNLOAD_URL (sub_id sub)) []]).
Proof.
  unfold list_subtitles, bind, ret.
  destruct (search_languages video0 languages [] st) as [[found | e] st1] eqn:Hfound;
    [| discriminate].
  intros [= <- _].
  assert (Hall : Forall (found_for video0 languages) (sort_reverse found)).
  { rewrite sort_reverse_Permutation.
    apply (search_languages_Forall video0 languages languages (reflexivity _) [] st found st1);
      [constructor | exact Hfound]. }
  split; [exact Hall |].
  intros sub st0 s Hin Hs.
  rewrite Forall_forall in Hall. destruct (Hall sub Hin) as (_ & _ & _ & _ & _ & Hlink & _).
  unfold download_subtitle_body, bind, send. rewrite Hs, Hlink.
  destruct (server (trace st0) _) as [res |]; simpl; [| apply requests_snoc].
  unfold raise_for_status. destruct (http_error res); simpl; [apply requests_snoc |].
  destruct (Py.occurs_in AUTH_MARKER (text res)); simpl; apply requests_snoc.
Qed.

(** ** The sort *)

Lemma with_key_insert_other (score count : Z) (x : Subtitle) (l : list Subtitle) :
  (user_score x =? score) && (hits x =? count) = false ->
  with_key score count (insert_sorted x l) = with_key score count l.
Proof.
  intros Hx. unfold with_key.
  induction l as [| y r IH]; simpl.
  - rewrite Hx. reflexivity.
  - destruct (key_lt x y); simpl.
    + rewrite IH. reflexivity.
    + rewrite Hx. reflexivity.
Qed.

Lemma with_key_insert_same (score count : Z) (x : Subtitle) (l : list Subtitle) :
  (user_score x =? score) && (hits x =? count) = true ->
  with_key score count (insert_sorted x l) = x :: with_key score count l.
Proof.
  intros Hx. unfold with_key.
  induction l as [| y r IH]; simpl.
  - rewrite Hx. reflexivity.
  - destruct (key_lt x y) eqn:Hlt; simpl.
    + assert (Hy : (user_score y =? score) && (hits y =? count) = false).
      { unfold key_lt in Hlt. lia. }
      rewrite Hy, IH. reflexivity.
    + rewrite Hx. reflexivity.
Qed.

Lemma sort_reverse_stable (score count : Z) (l : list Subtitle) :
  with_key score count (sort_reverse l) = with_key score count l.
Proof.
  unfold sort_reverse. induction l as [| x l IH]; [reflexivity |].
  cbn [foldr].
  destruct ((user_score x =? score) && (hits x =? count)) eqn:Hx.
  - rewrite (with_key_insert_same _ _ _ _ Hx), IH. unfold with_key. simpl. rewrite Hx.
    reflexivity.
  - rewrite (with_key_insert_other _ _ _ _ Hx), IH. unfold with_key. simpl. rewrite Hx.
    reflexivity.
Qed.

Lemma insert_sorted_head (x : Subtitle) (l : list Subtitle) :
  Forall (key_ge x) l -> insert_sorted x l = x :: l.
Proof.
  destruct l as [| y r]; [reflexivity |]. intros Hall. simpl.
  apply Forall_cons in Hall as [Hy _].
  destruct (key_lt x y) eqn:Hlt; [| reflexivity].
  unfold key_lt in Hlt. unfold key_ge in Hy. lia.
Qed.

Lemma sort_reverse_sorted_id (l : list Subtitle) :
  StronglySorted key_ge l -> sort_reverse l = l.
Proof.
  unfold sort_reverse. intros Hl. induction Hl as [| x l Hl IH Hx]; [reflexivity |].
  cbn [foldr]. rewrite IH. apply insert_sorted_head. exact Hx.
Qed.

(** The list that [list_subtitles] returns holds the subtitles that the
    searches found, each as often as it was found, and subtitles of the
    same score and hits stand in the order in which they were found; a
    list found in non-increasing order is returned as it is. *)
Theorem list_subtitles_sort_stable (video0 : Video) (languages : list Language)
    (st st' : State) (subs : list Subtitle) :
  list_subtitles video0 languages st = (Ok subs, st') ->
  exists found,
    search_languages video0 languages [] st = (Ok found, st')
    /\ Permutation subs found
    /\ (forall score count, with_key score count subs = with_key score count found)
    /\ (StronglySorted key_ge found -> subs = found).
Proof.
  unfold list_subtitles, bind, ret.
  destruct (search_languages video0 languages [] st) as [[found | e] st1];
    [| discriminate].
  intros [= <- <-]. exists found.
  split; [reflexivity |]. split; [apply sort_reverse_Permutation |].
  split; [intros score count; apply sort_reverse_stable | apply sort_reverse_sorted_id].
Qed.

(** ** Ties between archive entries *)

Lemma best_entry_Ok_returns (video0 : Video) (scores : gmap string Z) (names : list string) :
  forall best_name best_score result,
    best_entry video0 scores names best_name best_score = Ok result ->
    forall name, name ∈ names -> considered video0 name = true ->
      returns (guess_matches video0 (guess_entry name)).
Proof.
  induction names as [| name0 rest IH]; intros best_name best_score result Hrun name Hin Hc.
  - apply elem_of_nil in Hin. contradiction.
  - cbn [best_entry] in Hrun.
    destruct (considered video0 name0) eqn:Hc0.
    + pose proof Hc0 as Hc0'. unfold considered in Hc0'.
      apply andb_true_iff in Hc0' as [Hname Hep]. apply negb_true_iff in Hep.
      rewrite Hname, Hep in Hrun. simpl in Hrun.
      destruct (guess_matches video0 (guess_entry name0)) as [matches | e] eqn:Hmatches;
        [| discriminate].
      apply elem_of_cons in Hin as [-> | Hin]; [eexists; exact Hmatches |].
      destruct (best_score <? match_score scores matches); eapply IH; eauto.
    + apply elem_of_cons in Hin as [-> | Hin]; [congruence |].
      unfold considered in Hc0.
      destruct (subtitle_name name0); simpl in *; [| eapply IH; eauto].
      apply negb_false_iff in Hc0. rewrite Hc0 in Hrun. eapply IH; eauto.
Qed.

Lemma best_entry_first (video0 : Video) (names : list string) :
  (forall name, name ∈ names -> considered video0 name = true ->
      returns (guess_matches video0 (guess_entry name))) ->
  forall best_name best_score name best_score',
    best_entry video0 (get_scores video0) names best_name best_score
    = Ok (Some name, best_score') ->
    best_score < best_score' ->
    exists before after,
      names = before ++ name :: after
      /\ considered video0 name = true
      /\ entry_score video0 name = best_score'
      /\ (forall n, n ∈ before -> considered video0 n = true ->
            entry_score video0 n < best_score')
      /\ (forall n, n ∈ after -> considered video0 n = true ->
            entry_score video0 n <= best_score').
Proof.
  induction names as [| name0 rest IH];
    intros Hreturns best_name best_score name best_score' Hrun Hlt.
  - cbn [best_entry] in Hrun. injection Hrun as _ Hs. lia.
  - assert (Hrest : forall n, n ∈ rest -> considered video0 n = true ->
                      returns (guess_matches video0 (guess_entry n))).
    { intros n Hn. apply Hreturns. right. exact Hn. }
    specialize (IH Hrest). cbn [best_entry] in Hrun.
    assert (Hskip : forall before after,
               rest = before ++ name :: after ->
               name0 :: rest = (name0 :: before) ++ name :: after).
    { intros before after ->. reflexivity. }
    destruct (considered video0 name0) eqn:Hc0.
    + destruct (Hreturns name0 (list_elem_of_here _ _) Hc0) as [matches Hmatches].
      pose proof Hc0 as Hc0'. unfold considered in Hc0'.
      apply andb_true_iff in Hc0' as [Hname Hep]. apply negb_true_iff in Hep.
      rewrite Hname, Hep, Hmatches in Hrun. simpl in Hrun.
      assert (Hscore : entry_score video0 name0 = match_score (get_scores video0) matches).
      { unfold entry_score. rewrite Hmatches. reflexivity. }
      destruct (Z.ltb_spec best_score (match_score (get_scores video0) matches)) as [Hnew | Hold].
      * destruct (best_entry_spec video0 rest Hrest (Some name0)
                    (match_score (get_scores video0) matches))
          as (bn & bs & Hrun' & Hle & Hmax & Hwhich).
        rewrite Hrun in Hrun'. injection Hrun' as <- <-.
        destruct Hwhich as [[Hsame Hbs] | (other & _ & _ & _ & _ & Hmore)].
        -- injection Hsame as ->. exists [], rest.
           split; [reflexivity |]. split; [exact Hc0 |]. split; [congruence |].
           split; [intros n Hn; apply elem_of_nil in Hn; contradiction | exact Hmax].
        -- destruct (IH _ _ _ _ Hrun Hmore) as (before & after & Hsplit & Hc & Hs & Hb & Ha).
           exists (name0 :: before), after.
           split; [apply Hskip; exact Hsplit |]. split; [exact Hc |]. split; [exact Hs |].
           split; [| exact Ha].
           intros entry Hentry Hcn. apply elem_of_cons in Hentry as [-> | Hentry]; [lia | auto].
      * destruct (IH _ _ _ _ Hrun Hlt) as (before & after & Hsplit & Hc & Hs & Hb & Ha).
        exists (name0 :: before), after.
        split; [apply Hskip; exact Hsplit |]. split; [exact Hc |]. split; [exact Hs |].
        split; [| exact Ha].
        intros entry Hentry Hcn. apply elem_of_cons in Hentry as [-> | Hentry]; [lia | auto].
    + assert (Hrun' : best_entry video0 (get_scores video0) rest best_name best_score
                      = Ok (Some name, best_score')).
      { unfold considered in Hc0. destruct (subtitle_name name0); simpl in *; [| exact Hrun].
        apply negb_false_iff in Hc0. rewrite Hc0 in Hrun. exact Hrun. }
      destruct (IH _ _ _ _ Hrun' Hlt) as (before & after & Hsplit & Hc & Hs & Hb & Ha).
      exists (name0 :: before), after.
      split; [apply Hskip; exact Hsplit |]. split; [exact Hc |]. split; [exact Hs |].
      split; [| exact Ha].
      intros entry Hentry Hcn. apply elem_of_cons in Hentry as [-> | Hentry]; [congruence | auto].
Qed.

(** When [_extract_best_from_archive] returns the bytes of an entry, it
    is the first entry of the archive, in the order of [namelist()],
    among the candidate entries of the greatest score: every candidate
    before it has a smaller score, every candidate after it a score
    that is not greater. *)
Theorem extract_takes_first_of_best (archive : Archive) (subtitle : Subtitle)
    (data : list byte) :
  NoDup SUBTITLE_EXTENSIONS ->
  _extract_best_from_archive archive subtitle = Ok (Some data) ->
  exists before name after,
    namelist archive = before ++ name :: after
    /\ read archive name = Ok data
    /\ Candidate (video subtitle) name
    /\ 0 < entry_score (video subtitle) name
    /\ (forall n, n ∈ before -> Candidate (video subtitle) n ->
          entry_score (video subtitle) n < entry_score (video subtitle) name)
    /\ (forall n, n ∈ after -> Candidate (video subtitle) n ->
          entry_score (video subtitle) n <= entry_score (video subtitle) name).
Proof.
  intros Hnodup. unfold _extract_best_from_archive.
  destruct (best_entry (video subtitle) (get_scores (video subtitle)) (namelist archive)
              None (-1)) as [[[name |] bs] | e] eqn:Hrun; try discriminate.
  destruct (Z.leb_spec bs 0) as [| Hpos]; [discriminate |].
  destruct (read archive name) as [bytes | e] eqn:Hread; [| discriminate].
  intros [= <-].
  destruct (best_entry_first (video subtitle) (namelist archive)
              (best_entry_Ok_returns _ _ _ _ _ _ Hrun) _ _ _ _ Hrun ltac:(lia))
    as (before & after & Hsplit & Hc & Hs & Hb & Ha).
  exists before, name, after.
  split; [exact Hsplit |]. split; [exact Hread |].
  split; [apply (considered_spec _ _ Hnodup); exact Hc |].
  split; [lia |]. rewrite Hs. split.
  - intros n Hn Hcand. apply Hb; [exact Hn |]. apply (considered_spec _ _ Hnodup). exact Hcand.
  - intros n Hn Hcand. apply Ha; [exact Hn |]. apply (considered_spec _ _ Hnodup). exact Hcand.
Qed.

(** ** The requests of any run *)

Section Emission.

Variable P : Event -> Prop.

Lemma emits_nothing {A} (m : M A) :
  (forall st, trace (snd (m st)) = trace st) -> emits P m.
Proof.
  intros Hm st. exists []. rewrite app_nil_r. split; [apply Hm | constructor].
Qed.

Lemma emits_ret {A} (a : A) : emits P (ret a).
Proof. apply emits_nothing. reflexivity. Qed.

Lemma emits_raise {A} (e : Exn) : emits P (@raise A e).
Proof. apply emits_nothing. reflexivity. Qed.

Lemma emits_lift {A} (r : Result A) : emits P (lift r).
Proof. apply emits_nothing. reflexivity. Qed.

Lemma emits_get_self : emits P get_self.
Proof. apply emits_nothing. reflexivity. Qed.

Lemma emits_set_session (s : Session) : emits P (set_session s).
Proof. apply emits_nothing. reflexivity. Qed.

Lemma emits_emit (e : Event) : P e -> emits P (emit e).
Proof. intros He st. exists [e]. split; [reflexivity | constructor; [exact He | constructor]]. Qed.

Lemma emits_new_session : P NewSession -> emits P new_session.
Proof.
  intros Hnew st. exists [NewSession].
  split; [reflexivity | constructor; [exact Hnew | constructor]].
Qed.

Lemma emits_send (r : Request) : P (Sent r) -> emits P (send r).
Proof.
  intros Hr st. unfold send.
  destruct (session (self st)).
  - exists [Sent r]. split; [| constructor; [exact Hr | constructor]].
    destruct (server (trace st) r); reflexivity.
  - exists []. rewrite app_nil_r. split; [reflexivity | constructor].
Qed.

Lemma emits_bind {A B} (m : M A) (k : A -> M B) :
  emits P m -> (forall a, emits P (k a)) -> emits P (bind m k).
Proof.
  intros Hm Hk st. unfold bind.
  destruct (Hm st) as (events & Htrace & Hall).
  destruct (m st) as [[a | e] st1]; simpl in *.
  - destruct (Hk a st1) as (events' & Htrace' & Hall').
    exists (events ++ events'). rewrite Htrace', Htrace, app_assoc.
    split; [reflexivity | apply Forall_app; auto].
  - exists events. auto.
Qed.

Lemma emits_try_except {A} (m : M A) (h : Exn -> M A) :
  emits P m -> (forall e, emits P (h e)) -> emits P (try_except m h).
Proof.
  intros Hm Hh st. unfold try_except.
  destruct (Hm st) as (events & Htrace & Hall).
  destruct (m st) as [[a | e] st1]; simpl in *.
  - exists events. auto.
  - destruct (Hh e st1) as (events' & Htrace' & Hall').
    exists (events ++ events'). rewrite Htrace', Htrace, app_assoc.
    split; [reflexivity | apply Forall_app; auto].
Qed.

Lemma emits_raise_for_status (res : Response) : emits P (raise_for_status res).
Proof.
  unfold raise_for_status. destruct (http_error res); [apply emits_raise | apply emits_ret].
Qed.

End Emission.

Lemma emits__login : emits expected _login.
Proof.
  unfold _login.
  apply emits_bind; [apply emits_send; left; reflexivity | intros res].
  apply emits_bind; [apply emits_raise_for_status | intros _].
  destruct (Re.TOKEN_RE_search (text res)); [| apply emits_raise].
  apply emits_bind; [apply emits_get_self | intros p].
  apply emits_bind; [apply emits_send; reflexivity | intros res'].
  apply emits_bind; [apply emits_raise_for_status | intros _].
  destruct (Py.occurs_in AUTH_MARKER (text res')); [apply emits_raise | apply emits_ret].
Qed.

Lemma emits_initialize : emits expected initialize.
Proof.
  unfold initialize.
  apply emits_bind; [apply emits_get_self | intros p].
  destruct (negb (Py.truthy_str (username p)) || negb (Py.truthy_str (password p)));
    [apply emits_raise |].
  apply emits_bind; [apply emits_new_session; exact I | intros s].
  apply emits_bind; [apply emits_set_session | intros _].
  apply emits__login.
Qed.

Lemma emits_terminate : emits expected terminate.
Proof.
  unfold terminate.
  apply emits_bind; [apply emits_get_self | intros p].
  destruct (session p); [| apply emits_ret].
  apply emits_bind; [apply emits_emit; exact I | intros _].
  apply emits_set_session.
Qed.

Lemma emits__parse_details_page video0 url language0 :
  emits expected (_parse_details_page video0 url language0).
Proof.
  unfold _parse_details_page.
  apply emits_bind; [apply emits_send; left; reflexivity | intros res].
  apply emits_bind; [apply emits_raise_for_status | intros _].
  apply emits_lift.
Qed.

Lemma emits_search_results video0 language0 anchors :
  forall results, emits expected (search_results video0 language0 anchors results).
Proof.
  induction anchors as [| a rest IH]; intros results; cbn [search_results].
  - apply emits_ret.
  - destruct (negb (Py.occurs_in INFO_PATH (tag_attr a "href"))); [apply IH |].
    apply emits_bind; [apply emits__parse_details_page | intros [sub |]]; apply IH.
Qed.

Lemma emits__search_language video0 language0 :
  emits expected (_search_language video0 language0).
Proof.
  unfold _search_language.
  destruct (negb (Py.truthy_str (get_pipocas_language language0))); [apply emits_ret |].
  destruct (negb (nonempty (_build_search_query video0))); [apply emits_ret |].
  apply emits_bind; [apply emits_emit; exact I | intros _].
  apply emits_bind; [apply emits_send; right; reflexivity | intros res].
  apply emits_bind; [apply emits_raise_for_status | intros _].
  destruct (Py.occurs_in AUTH_MARKER (text res));
    [apply emits_raise | apply emits_search_results].
Qed.

Lemma emits_search_languages video0 languages :
  forall all_subs, emits expected (search_languages video0 languages all_subs).
Proof.
  induction languages as [| language rest IH]; intros all_subs; cbn [search_languages].
  - apply emits_ret.
  - apply emits_bind; [| intros subs; apply IH].
    apply emits_try_except.
    + apply emits_bind; [apply emits__search_language | intros subs; apply emits_ret].
    + intros e. destruct (reraised e); [apply emits_raise | apply emits_ret].
Qed.

Lemma emits_list_subtitles video0 languages :
  emits expected (list_subtitles video0 languages).
Proof.
  unfold list_subtitles.
  apply emits_bind; [apply emits_search_languages | intros subs; apply emits_ret].
Qed.

Lemma emits_download_subtitle_body subtitle :
  emits expected (download_subtitle_body subtitle).
Proof.
  unfold download_subtitle_body.
  apply emits_bind; [apply emits_send; left; reflexivity | intros res].
  apply emits_bind; [apply emits_raise_for_status | intros _].
  destruct (Py.occurs_in AUTH_MARKER (text res)); [apply emits_raise | apply emits_lift].
Qed.

Lemma emits_reinitialize_on_error {A} (exceptions : Exn -> bool) (method : M A) :
  emits expected method ->
  forall attempts, emits expected (reinitialize_on_error exceptions attempts method).
Proof.
  intros Hmethod attempts.
  induction attempts as [| remaining IH]; cbn [reinitialize_on_error];
    apply emits_try_except; try exact Hmethod; intros e;
    destruct (exceptions e); try apply emits_raise.
  apply emits_bind; [apply emits_terminate | intros _].
  apply emits_bind; [apply emits_initialize | intros _].
  exact IH.
Qed.

Lemma emits_download_subtitle subtitle : emits expected (download_subtitle subtitle).
Proof.
  unfold download_subtitle.
  apply emits_reinitialize_on_error, emits_download_subtitle_body.
Qed.

(** Over any run of the operations of the provider, the methods as the
    host calls them, the decorator of [download_subtitle] included, from
    any state, the trace only grows, and in what is added every form
    posted goes to the login address, and every request with query
    parameters to the search address. *)
Theorem run_sends_expected_requests (ops : list Operation) (st : State) :
  exists events,
    trace (run ops st) = trace st ++ events
    /\ Forall expected events
    /\ (forall url data, Sent (POST url data) ∈ events -> url = LOGIN_URL)
    /\ (forall url params,
          Sent (GET url params) ∈ events -> params <> [] -> url = SEARCH_URL).
Proof.
  assert (Hrun : exists events,
             trace (run ops st) = trace st ++ events /\ Forall expected events).
  { unfold run. revert st. induction ops as [| op ops IH]; intros st; cbn [foldl].
    - exists []. rewrite app_nil_r. split; [reflexivity | constructor].
    - assert (Hstep : exists events,
                 trace (step op st) = trace st ++ events /\ Forall expected events).
      { destruct op; cbn [step].
        - apply emits_initialize.
        - apply emits_terminate.
        - apply emits_list_subtitles.
        - apply emits_download_subtitle. }
      destruct Hstep as (events & Htrace & Hall).
      destruct (IH (step op st)) as (events' & Htrace' & Hall').
      exists (events ++ events'). rewrite Htrace', Htrace, app_assoc.
      split; [reflexivity | apply Forall_app; auto]. }
  destruct Hrun as (events & Htrace & Hall).
  exists events. split; [exact Htrace |]. split; [exact Hall |].
  rewrite Forall_forall in Hall. split.
  - intros url data Hin. exact (Hall _ Hin).
  - intros url params Hin Hparams. destruct (Hall _ Hin) as [-> | ->]; congruence.
Qed.

(** ** Initialization *)

(** With a username and a password, [initialize] creates a session
    before anything else and leaves it open in the provider whatever
    comes of the login, with the headers of the class over those of a
    fresh session: the user agent of the environment, or Sub-Zero/2, and
    the site as origin and referer. After the session it sends the GET of
    the login page and at most the POST of the form, and nothing else. *)
Theorem initialize_opens_session (st : State) :
  Py.truthy_str (username (self st)) = true ->
  Py.truthy_str (password (self st)) = true ->
  (exists opened,
      session (self (snd (initialize st))) = Some opened
      /\ closed opened = false
      /\ session_headers opened !! "User-Agent" = Some (default "Sub-Zero/2" SZ_USER_AGENT)
      /\ session_headers opened !! "Origin" = Some SITE
      /\ session_headers opened !! "Referer" = Some SITE)
  /\ (exists events,
        trace (snd (initialize st)) = trace st ++ NewSession :: events
        /\ (requests events = [GET LOGIN_URL []]
            \/ exists token,
                 requests events
                 = [GET LOGIN_URL []; POST LOGIN_URL (login_form (self st) token)])).
Proof.
  intros Huser Hpass.
  unfold initialize, bind, get_self, new_session, set_session. simpl.
  rewrite Huser, Hpass. simpl.
  set (st1 := {| self := {| username := username (self st); password := password (self st);
                            session := Some {| created := length (trace st);
                                               session_headers := headers ∪ fresh_headers;
                                               closed := false |} |};
                 trace := trace st ++ [NewSession] |}).
  split.
  - rewrite (_login_self st1). simpl. eexists. split; [reflexivity |].
    split; [reflexivity |]. simpl.
    repeat split; apply lookup_union_Some_l; reflexivity.
  - unfold _login, bind, send, get_self. simpl.
    destruct (server (trace st ++ [NewSession]) (GET LOGIN_URL [])) as [page |]; simpl.
    + unfold raise_for_status.
      destruct (http_error page); simpl.
      * exists [Sent (GET LOGIN_URL [])]. rewrite <- app_assoc. split; [reflexivity |].
        left. reflexivity.
      * destruct (Re.TOKEN_RE_search (text page)) as [token |]; simpl.
        -- exists [Sent (GET LOGIN_URL []);
                   Sent (POST LOGIN_URL (login_form (self st) token))].
           split; [| right; exists token; reflexivity].
           destruct (server _ (POST _ _)) as [res |]; simpl.
           ++ destruct (http_error res); simpl;
                [| destruct (Py.occurs_in AUTH_MARKER (text res)); simpl];
                rewrite <- !app_assoc; reflexivity.
           ++ rewrite <- !app_assoc. reflexivity.
        -- exists [Sent (GET LOGIN_URL [])]. rewrite <- app_assoc. split; [reflexivity |].
           left. reflexivity.
    + exists [Sent (GET LOGIN_URL [])]. rewrite <- app_assoc. split; [reflexivity |].
      left. reflexivity.
Qed.

(** ** The id of a download link *)

Lemma append_empty_r (a : string) : a +:+ EmptyString = a.
Proof. induction a as [| c a IH]; [reflexivity | rewrite append_cons, IH; reflexivity]. Qed.

Lemma take_while_found (f : ascii -> bool) (s : string) :
  exists post,
    s = Re.take_while f s +:+ post
    /\ match post with EmptyString => True | String c _ => f c = false end.
Proof.
  induction s as [| c s IH]; simpl.
  - exists EmptyString. auto.
  - destruct (f c) eqn:Hc.
    + destruct IH as (post & Hs & Hpost). exists post.
      rewrite append_cons, <- Hs. auto.
    + exists (String c s). auto.
Qed.

Lemma take_while_not_quote (s : string) : unquoted (Re.take_while Re.not_quote s) = true.
Proof.
  induction s as [| c s IH]; simpl; [reflexivity |].
  destruct (Re.not_quote c) eqn:Hc; simpl; [rewrite Hc, IH |]; reflexivity.
Qed.

Lemma take_while_unquoted (id post : string) :
  unquoted id = true -> ends_id post = true ->
  Re.take_while Re.not_quote (id +:+ post) = id.
Proof.
  intros Hid Hpost. induction id as [| c id IH].
  - rewrite append_nil. destruct post as [| d post]; [reflexivity |].
    simpl in *. apply negb_true_iff in Hpost. rewrite Hpost. reflexivity.
  - simpl in Hid. apply andb_true_iff in Hid as [Hc Hid].
    rewrite append_cons. simpl. rewrite Hc, (IH Hid). reflexivity.
Qed.

Lemma download_id_at (id post : string) :
  id <> EmptyString -> unquoted id = true -> ends_id post = true ->
  Re.download_id_match_at (Re.DOWNLOAD_PATH +:+ id +:+ post) = Some id.
Proof.
  intros Hne Hid Hpost. unfold Re.download_id_match_at.
  rewrite startswith_app, drop_app_length, (take_while_unquoted _ _ Hid Hpost).
  destruct id; [congruence | reflexivity].
Qed.

Lemma no_path_in_site (rest : string) : no_path_in SITE rest.
Proof.
  intros pre1 pre2 Hsplit Hne. unfold SITE in Hsplit.
  repeat (destruct pre1 as [| ? pre1];
          [rewrite append_nil in Hsplit; subst pre2; reflexivity
          | rewrite append_cons in Hsplit; injection Hsplit as ? Hsplit]).
  destruct pre1; [rewrite append_nil in Hsplit; congruence | discriminate].
Qed.

Lemma search_at {A} (match_at : string -> option A) (s : string) (m : A) :
  match_at s = Some m -> Re.search match_at s = Some m.
Proof. intros H. destruct s; cbn [Re.search]; rewrite H; reflexivity. Qed.

(** The id of a download link is read back from the link: for an id that
    is not empty and holds no quote, the search of the details page finds
    the id in the download address made of it, and in any href where the
    download path stands first before the id and the id runs to the end
    or to a quote. *)
Theorem download_id_round_trip (id : string) :
  id <> EmptyString ->
  unquoted id = true ->
  Re.download_id_search (DOWNLOAD_URL id) = Some id
  /\ (forall pre post,
        ends_id post = true ->
        no_path_in pre (Re.DOWNLOAD_PATH +:+ id +:+ post) ->
        Re.download_id_search (pre +:+ Re.DOWNLOAD_PATH +:+ id +:+ post) = Some id).
Proof.
  intros Hne Hid.
  assert (Hany : forall pre post,
             ends_id post = true ->
             no_path_in pre (Re.DOWNLOAD_PATH +:+ id +:+ post) ->
             Re.download_id_search (pre +:+ Re.DOWNLOAD_PATH +:+ id +:+ post) = Some id).
  { intros pre post Hpost Hpre. unfold Re.download_id_search.
    rewrite search_skip.
    - apply search_at, download_id_at; assumption.
    - intros pre1 pre2 Hsplit Hne2. unfold Re.download_id_match_at.
      rewrite (Hpre pre1 pre2 Hsplit Hne2). reflexivity. }
  split; [| exact Hany].
  unfold DOWNLOAD_URL. change "/legendas/download/"%string with Re.DOWNLOAD_PATH.
  rewrite <- (append_empty_r id) at 1.
  apply Hany; [reflexivity | apply no_path_in_site].
Qed.

Lemma download_id_found (href id : string) :
  Re.download_id_search href = Some id ->
  id <> EmptyString /\ unquoted id = true
  /\ exists pre post,
       href = pre +:+ Re.DOWNLOAD_PATH +:+ id +:+ post /\ ends_id post = true.
Proof.
  unfold Re.download_id_search. intros Hs.
  destruct (search_found _ _ _ Hs) as (pre & rest & Hhref & Hat).
  unfold Re.download_id_match_at in Hat.
  destruct (Py.startswith Re.DOWNLOAD_PATH rest) eqn:Hpath; [| discriminate].
  destruct (startswith_split _ _ Hpath) as [tail ->].
  rewrite drop_app_length in Hat.
  destruct (take_while_found Re.not_quote tail) as (post & Htail & Hpost).
  pose proof (take_while_not_quote tail) as Hun.
  destruct (Re.take_while Re.not_quote tail) as [| c g] eqn:Htake; [discriminate |].
  injection Hat as <-.
  split; [discriminate |]. split; [exact Hun |].
  exists pre, post. split; [rewrite Hhref, Htail; reflexivity |].
  destruct post as [| d post]; [reflexivity |]. simpl. rewrite Hpost. reflexivity.
Qed.

Lemma first_download_id_found (anchors : list Tag) (id : string) :
  first_download_id anchors = Some id ->
  exists before a after,
    anchors = before ++ a :: after
    /\ Re.download_id_search (tag_attr a "href") = Some id
    /\ Forall (fun b => Re.download_id_search (tag_attr b "href") = None) before.
Proof.
  induction anchors as [| a rest IH]; simpl; [discriminate |].
  destruct (Re.download_id_search (tag_attr a "href")) as [g |] eqn:Ha.
  - intros [= <-]. exists [], a, rest. auto.
  - intros Hrest. destruct (IH Hrest) as (before & b & after & -> & Hb & Hnone).
    exists (a :: before), b, after. auto.
Qed.

(** The subtitle id that [_parse_details_page] gives a subtitle comes
    from the first link of the page, in document order, whose href holds
    the download path followed by a character that is no quote: the id
    is what follows the path in that href, up to the first quote or the
    end, so it is not empty and holds no quote. *)
Theorem parsed_sub_id_from_first_link (video0 : Video) (language0 : Language)
    (page : string) (sub : Subtitle) :
  parse_details video0 language0 page = Ok (Some sub) ->
  sub_id sub <> EmptyString
  /\ unquoted (sub_id sub) = true
  /\ exists before a after pre post,
       find_all (BeautifulSoup page) "a" [HasAttr "href"] = before ++ a :: after
       /\ Forall (fun b => Re.download_id_search (tag_attr b "href") = None) before
       /\ tag_attr a "href" = pre +:+ Re.DOWNLOAD_PATH +:+ sub_id sub +:+ post
       /\ ends_id post = true.
Proof.
  unfold parse_details.
  destruct (first_download_id (find_all (BeautifulSoup page) "a" [HasAttr "href"]))
    as [id |] eqn:Hfirst; [| discriminate].
  destruct (negb (Py.truthy_str (Some id))); [discriminate |].
  destruct (Stars.score_stars _ _) as [stars | e]; [| discriminate].
  intros [= <-]. simpl.
  destruct (first_download_id_found _ _ Hfirst) as (before & a & after & Hsplit & Ha & Hnone).
  destruct (download_id_found _ _ Ha) as (Hne & Hun & pre & post & Hhref & Hpost).
  split; [exact Hne |]. split; [exact Hun |].
  exists before, a, after, pre, post. auto.
Qed.

(** ** The rating of a details page *)










End FurtherProperties.

Lemma token_round_trip_witness :
  Re.TOKEN_RE_search ("<p>" +:+ Re.TOKEN_OPEN +:+ "tok123" +:+ Re.TOKEN_CLOSE +:+ "</p>")
  = Some "tok123".
Proof.
  apply (token_round_trip "<p>" Re.TOKEN_OPEN "tok123" "</p>").
  - reflexivity.
  - discriminate.
  - reflexivity.
  - intros pre1 pre2 Hsplit Hne.
    repeat (destruct pre1 as [| ? pre1];
            [ rewrite append_nil in Hsplit; subst pre2; try (vm_compute; reflexivity)
            | rewrite append_cons in Hsplit; injection Hsplit as ? Hsplit; subst ]).
    destruct pre1; [rewrite append_nil in Hsplit; congruence | discriminate].
Defined.

Lemma token_found_sound_witness :
  "tok123" <> EmptyString /\ one_line "tok123" = true
  /\ exists pre opening post,
       Site.login_page = pre +:+ opening +:+ "tok123" +:+ post
       /\ Py.lower opening = Py.lower Re.TOKEN_OPEN
       /\ Re.literal_ci Re.TOKEN_CLOSE post = true.
Proof.
  apply (token_found_sound Site.login_page "tok123"). vm_compute. reflexivity.
Defined.

Lemma stars_exact_on_ratings_witness :
  Stars.score_stars 8 100 = Ok (exact_stars 8 100)
  /\ 0 <= exact_stars 8 100 <= 8
  /\ Stars.score_stars 10 500 = Ok 8.
Proof. apply (stars_exact_on_ratings 8 100); lia. Defined.

Lemma no_session_no_request_witness :
  fst (@list_subtitles Site.up (Site.show 1 2) [Site.fra; Site.por] Site.fresh) = Ok []
  /\ @download_subtitle Site.up (Site.subtitle "11" "Show.S01E02" (Site.show 1 2)) Site.fresh
     = (Raise AttributeError, Site.fresh).
Proof.
  destruct (@no_session_no_request Site.up Site.fresh eq_refl) as [Hlist Hdownload].
  split; [apply Hlist | apply Hdownload].
Defined.

Lemma download_subtitle_outcomes_witness :
  snd (@download_subtitle Site.up (Site.subtitle "33" "Show.S01E02" (Site.show 1 2))
         Site.opened)
  = {| self := self Site.opened;
       trace := trace Site.opened
                ++ [Sent (GET (page_link (Site.subtitle "33" "Show.S01E02" (Site.show 1 2)))
                           [])] |}
  /\ fst (@download_subtitle Site.up (Site.subtitle "33" "Show.S01E02" (Site.show 1 2))
            Site.opened)
     = Raise AuthenticationError.
Proof.
  destruct (@download_subtitle_outcomes Site.up
              (Site.subtitle "33" "Show.S01E02" (Site.show 1 2)) Site.opened _ eq_refl)
    as (Hsnd & _ & Hres & _).
  split; [exact Hsnd |].
  destruct (Hres (Site.page 200 "Cria uma conta")) as (_ & Hauth & _);
    [vm_compute; reflexivity |].
  apply Hauth; vm_compute; reflexivity.
Defined.

Lemma list_subtitles_found_witness :
  exists subs st',
    @list_subtitles Site.up (Site.show 1 2) [Site.fra; Site.por] Site.opened = (Ok subs, st')
    /\ (sub_id <$> subs) = ["22"; "11"]
    /\ Forall (found_for (Site.show 1 2) [Site.fra; Site.por]) subs.
Proof.
  eexists. eexists. split; [vm_compute; reflexivity |]. split; [reflexivity |].
  refine (proj1 (@list_subtitles_found Site.up (Site.show 1 2) [Site.fra; Site.por]
                   Site.opened _ _ _)).
  vm_compute. reflexivity.
Defined.

Lemma list_subtitles_sort_stable_witness :
  exists subs st',
    @list_subtitles Site.up (Site.show 1 2) [Site.fra; Site.por] Site.opened = (Ok subs, st')
    /\ (sub_id <$> subs) = ["22"; "11"]
    /\ exists found,
         @search_languages Site.up (Site.show 1 2) [Site.fra; Site.por] [] Site.opened
         = (Ok found, st')
         /\ Permutation subs found
         /\ (forall score count, with_key score count subs = with_key score count found)
         /\ (StronglySorted key_ge found -> subs = found).
Proof.
  eexists. eexists. split; [vm_compute; reflexivity |]. split; [reflexivity |].
  apply (@list_subtitles_sort_stable Site.up (Site.show 1 2) [Site.fra; Site.por]
           Site.opened).
  vm_compute. reflexivity.
Defined.

Lemma extract_takes_first_of_best_witness :
  @_extract_best_from_archive Site.up twice
    (Site.subtitle "22" "Show.S01E02" (Site.show 1 2))
  = Ok (Some (Py.b "Show.S01E02.srt"))
  /\ @entry_score Site.up (Site.show 1 2) "Show.S01E02.srt"
     = @entry_score Site.up (Site.show 1 2) "old/Show.S01E02.srt"
  /\ exists before name after,
       namelist twice = before ++ name :: after
       /\ read twice name = Ok (Py.b "Show.S01E02.srt")
       /\ @Candidate Site.up (Site.show 1 2) name
       /\ 0 < @entry_score Site.up (Site.show 1 2) name
       /\ (forall n, n ∈ before -> @Candidate Site.up (Site.show 1 2) n ->
             @entry_score Site.up (Site.show 1 2) n
             < @entry_score Site.up (Site.show 1 2) name)
       /\ (forall n, n ∈ after -> @Candidate Site.up (Site.show 1 2) n ->
             @entry_score Site.up (Site.show 1 2) n
             <= @entry_score Site.up (Site.show 1 2) name).
Proof.
  split; [vm_compute; reflexivity |]. split; [vm_compute; reflexivity |].
  apply (@extract_takes_first_of_best Site.up twice
           (Site.subtitle "22" "Show.S01E02" (Site.show 1 2))).
  - apply (bool_decide_unpack _). vm_compute. reflexivity.
  - vm_compute. reflexivity.
Defined.

Lemma initialize_opens_session_witness :
  (exists opened,
      session (self (snd (@initialize Site.up Site.fresh))) = Some opened
      /\ closed opened = false
      /\ session_headers opened !! "User-Agent"
         = Some (default "Sub-Zero/2" (@SZ_USER_AGENT Site.up))
      /\ session_headers opened !! "Origin" = Some SITE
      /\ session_headers opened !! "Referer" = Some SITE)
  /\ (exists events,
        trace (snd (@initialize Site.up Site.fresh)) = trace Site.fresh ++ NewSession :: events
        /\ (requests events = [GET LOGIN_URL []]
            \/ exists token,
                 requests events
                 = [GET LOGIN_URL [];
                    POST LOGIN_URL (@login_form (self Site.fresh) token)])).
Proof.
  apply (@initialize_opens_session Site.up Site.fresh); reflexivity.
Defined.

Lemma download_id_round_trip_witness :
  Re.download_id_search (DOWNLOAD_URL "11") = Some "11"
  /\ Re.download_id_search ("/pt" +:+ Re.DOWNLOAD_PATH +:+ "11" +:+ "'") = Some "11".
Proof.
  destruct (download_id_round_trip "11" ltac:(discriminate) eq_refl) as [Hurl Hany].
  split; [exact Hurl |].
  apply Hany; [reflexivity |].
  intros pre1 pre2 Hsplit Hne.
  repeat (destruct pre1 as [| ? pre1];
          [rewrite append_nil in Hsplit; subst pre2; reflexivity
          | rewrite append_cons in Hsplit; injection Hsplit as ? Hsplit]).
  destruct pre1; [rewrite append_nil in Hsplit; congruence | discriminate].
Defined.

Lemma parsed_sub_id_from_first_link_witness :
  exists sub,
    @parse_details Site.up (Site.show 1 2) Site.por "details 1" = Ok (Some sub)
    /\ sub_id sub = "11"
    /\ unquoted (sub_id sub) = true.
Proof.
  eexists. split; [vm_compute; reflexivity |]. split; [reflexivity |].
  refine (proj1 (proj2 (@parsed_sub_id_from_first_link Site.up (Site.show 1 2) Site.por
                          "details 1" _ _))).
  vm_compute. reflexivity.
Defined.
